(** * Higher-order operators of [tensorflow/python/ops/functional_ops.py]

    A shallow embedding of [foldl], [foldr], [map_fn] and [scan] together
    with the collaborators they are built on: the tensor value, the
    [TensorArray] sequence buffer and the [While] loop construct.

    The embedding gives every combinator its value semantics (what the loop
    it assembles computes) and, next to the value, the ordered log of the
    buffer operations, shape queries and applications of [fn] it performs. *)

From Stdlib Require Import ZArith String Lia.
From stdpp Require Import base list.

Local Open Scope Z_scope.
Local Set Warnings "-register-all".

(** ** Tensor values *)

Inductive DType := DT_FLOAT | DT_INT32 | DT_INT64 | DT_BOOL.

#[global] Instance DType_eq_dec : EqDecision DType.
Proof. solve_decision. Defined.

(** Modelled from the spec: the external [Value] type, "an immutable,
    shape-and-type-tagged multidimensional array handle", opaque except for
    its element type, its leading-dimension size and stacking/unstacking
    along the leading dimension.  A rank-0 value carries one element, a value
    of rank at least 1 is the stack of its leading-dimension slices. *)
Inductive Value :=
| Scalar (dt : DType) (x : Z)
| Stacked (dt : DType) (slices : list Value).

(** [elems.dtype] *)
Definition dtype_of (v : Value) : DType :=
  match v with
  | Scalar dt _ => dt
  | Stacked dt _ => dt
  end.

Definition rank_ge_1 (v : Value) : bool :=
  match v with
  | Scalar _ _ => false
  | Stacked _ _ => true
  end.

(** [unstack(Value) -> sequence of Value]; undefined at rank 0. *)
Definition unstack (v : Value) : option (list Value) :=
  match v with
  | Scalar _ _ => None
  | Stacked _ slices => Some slices
  end.

(** [stack(Values) -> Value], tagged with the element type it is built at. *)
Definition stack (dt : DType) (slices : list Value) : Value :=
  Stacked dt slices.

(** [leadingDimensionSize()] *)
Definition leading_dim (v : Value) : option Z :=
  match v with
  | Scalar _ _ => None
  | Stacked _ slices => Some (Z.of_nat (length slices))
  end.

(** The [i]-th leading-dimension slice, and the last one ([v[-1]]). *)
Definition slice (v : Value) (i : nat) : option Value :=
  match v with
  | Scalar _ _ => None
  | Stacked _ slices => slices !! i
  end.

Definition last_slice (v : Value) : option Value :=
  match v with
  | Scalar _ _ => None
  | Stacked _ slices => last slices
  end.

(** A stacked value whose slices all carry its own element type. *)
Definition homogeneous (v : Value) : Prop :=
  match v with
  | Scalar _ _ => True
  | Stacked dt slices => Forall (fun x => dtype_of x = dt) slices
  end.

(** ** Errors, events and the construction monad *)

(** [TypeError msg] is Python's exception class as the source raises it;
    the other constructors are the spec's taxonomy for the buffer
    operations. *)
Inductive Error :=
| TypeError (msg : string)
| ShapeError
| TypeMismatchError
| IndexError
| IncompleteError.

(** The spec's [NotCallableError]: [raise TypeError("fn must be callable.")]. *)
Definition NotCallableError : Error := TypeError "fn must be callable.".

(** Python's own [TypeError] when a callable is applied to a number of
    arguments it does not accept, or when a non-callable is applied. *)
Definition ArgumentCountError : Error := TypeError "wrong number of arguments".
Definition ObjectNotCallable : Error := TypeError "object is not callable".

(** [write]'s element-type failure. *)
Definition ElementTypeError : Error := TypeError "element type mismatch".

Inductive Event :=
| EvShape
| EvAllocate (dt : DType) (size : Z) (dynamic_size : bool)
| EvUnpack
| EvRead (index : Z)
| EvWrite (index : Z) (value : Value)
| EvPack
| EvApply.

Inductive Outcome (A : Type) :=
| Return (a : A)
| Raise (e : Error)
| OutOfFuel.
Arguments Return {A} a.
Arguments Raise {A} e.
Arguments OutOfFuel {A}.

(** A computation yields an outcome and the events performed up to it; the
    events of a failing computation are kept. *)
Definition M (A : Type) : Type := (Outcome A * list Event)%type.

Definition ret {A} (a : A) : M A := (Return a, []).
Definition raise {A} (e : Error) : M A := (Raise e, []).
Definition emit (ev : Event) : M unit := (Return tt, [ev]).

Definition bind {A B} (m : M A) (k : A -> M B) : M B :=
  match m with
  | (Return a, t) => let (o, t') := k a in (o, t ++ t')
  | (Raise e, t) => (Raise e, t)
  | (OutOfFuel, t) => (OutOfFuel, t)
  end.

Notation "'let*' x ':=' c1 'in' c2" := (bind c1 (fun x => c2))
  (at level 10, x pattern, c1 at level 100, c2 at level 200).

Definition outcome {A} (m : M A) : Outcome A := fst m.
Definition events {A} (m : M A) : list Event := snd m.

(** ** Loop-carried state *)

(** Modelled from the spec: [LoopState], "an ordered tuple of loop-carried
    members (each a Value, SequenceBuffer, or scalar index)" with the
    invariant that "the tuple's arity and each member's element type are
    fixed across all iterations".  [element_types] lists the element types
    of the members in order; the index is an [int32] scalar. *)
Class LoopState (S : Type) := element_types : S -> list DType.

#[global] Instance index_LoopState : LoopState Z := fun _ => [DT_INT32].

#[global] Instance value_LoopState : LoopState Value := fun v => [dtype_of v].

#[global] Instance pair_LoopState {A B : Type}
    `{LoopState A} `{LoopState B} : LoopState (A * B) :=
  fun p => element_types (fst p) ++ element_types (snd p).

(** ** User functions as Python objects *)

Inductive PyObject :=
| PyNone
| PyTensor (v : Value)
| Lambda1 (f : Value -> Value)
| Lambda2 (f : Value -> Value -> Value).

(** Python's built-in [callable]. *)
Definition callable (fn : PyObject) : bool :=
  match fn with
  | Lambda1 _ | Lambda2 _ => true
  | PyNone | PyTensor _ => false
  end.

(** [fn(x)] *)
Definition call1 (fn : PyObject) (x : Value) : M Value :=
  match fn with
  | Lambda1 f => let* _ := emit EvApply in ret (f x)
  | Lambda2 _ => raise ArgumentCountError
  | PyNone | PyTensor _ => raise ObjectNotCallable
  end.

(** [fn(a, x)] *)
Definition call2 (fn : PyObject) (a x : Value) : M Value :=
  match fn with
  | Lambda2 f => let* _ := emit EvApply in ret (f a x)
  | Lambda1 _ => raise ArgumentCountError
  | PyNone | PyTensor _ => raise ObjectNotCallable
  end.

(** "A valid callable of matching arity". *)
Definition valid_callable (arity : nat) (fn : PyObject) : bool :=
  match fn with
  | Lambda1 _ => (arity =? 1)%nat
  | Lambda2 _ => (arity =? 2)%nat
  | PyNone | PyTensor _ => false
  end.

(** ** [ops]: name scopes and tensor conversion *)

Module ops.

(** Modelled from the spec: [with ops.op_scope(values, name, default_name)
    as name], the "graph-naming/scoping facility used only to group
    constructed nodes under a readable name prefix": it yields the name
    prefix to the block, creates no node and so contributes no event. *)
Definition op_scope {A} (values : list Value) (name : option string)
    (default_name : string) (block : string -> M A) : M A :=
  block (match name with Some s => s | None => default_name end).

(** Modelled from the spec: [ops.convert_to_tensor(initializer)]; the
    accumulator starts as the initializer itself (table of section 4.3). *)
Definition convert_to_tensor (v : Value) : Value := v.

End ops.

(** ** [array_ops] and [constant_op] *)

Module array_ops.

(** Modelled from the spec: [array_ops.shape(elems)[0]], the
    leading-dimension size query of the external [Value]; a rank-0 value
    has no leading dimension. *)
Definition shape0 (elems : Value) : M Z :=
  let* _ := emit EvShape in
  match leading_dim elems with
  | Some n => ret n
  | None => raise ShapeError
  end.

End array_ops.

Module constant_op.

(** Modelled from the spec: [constant_op.constant(c)], the index constants 0
    and 1 of the table of section 4.3. *)
Definition constant (c : Z) : Z := c.

End constant_op.

(** ** [tensor_array_ops]: the indexed sequence buffer *)

Module tensor_array_ops.

(** Modelled from the spec: the [SequenceBuffer] of section 4.1, which the
    source uses as [tensor_array_ops.TensorArray].  A slot is [None] until
    it is written; the capacity is the number of slots. *)
Record TensorArray := mkTensorArray {
  dtype : DType;
  dynamic_size : bool;
  slots : list (option Value)
}.

Definition capacity (ta : TensorArray) : Z := Z.of_nat (length (slots ta)).

(** Modelled from the spec: [allocate(elementType, capacity, dynamicSize)],
    the constructor call [TensorArray(dtype=, size=, dynamic_size=)]:
    "creates capacity empty slots". *)
Definition allocate (dt : DType) (size : Z) (dyn : bool) : M TensorArray :=
  let* _ := emit (EvAllocate dt size dyn) in
  ret (mkTensorArray dt dyn (replicate (Z.to_nat size) None)).

(** Modelled from the spec: [unpack(value)]: "capacity = size of value's
    leading dimension; slot i = value's i-th leading-dimension slice.
    Fails with ShapeError if value has zero rank."  As a method of an
    existing buffer it keeps that buffer's element type and growth flag. *)
Definition unpack (ta : TensorArray) (value : Value) : M TensorArray :=
  let* _ := emit EvUnpack in
  match unstack value with
  | Some slices =>
      ret (mkTensorArray (dtype ta) (dynamic_size ta) (map Some slices))
  | None => raise ShapeError
  end.

(** Modelled from the spec: [read(buffer, index)]: "fails with IndexError
    if index is out of [0, capacity) or slot unwritten". *)
Definition read (ta : TensorArray) (index : Z) : M Value :=
  let* _ := emit (EvRead index) in
  if (index <? 0) || (capacity ta <=? index) then raise IndexError
  else match slots ta !! Z.to_nat index with
       | Some (Some v) => ret v
       | _ => raise IndexError
       end.

(** Modelled from the spec: [write(buffer, index, value)]: "fails with
    IndexError if index out of range (unless dynamic and growth policy
    permits); fails with TypeError if value's element type mismatches
    elementType; returns a new buffer".  A growable buffer is extended with
    empty slots up to the written index.  The spec names no failure for a
    second write to a slot; the combinators write every slot at most once. *)
Definition write (ta : TensorArray) (index : Z) (value : Value)
    : M TensorArray :=
  let* _ := emit (EvWrite index value) in
  if index <? 0 then raise IndexError
  else if (capacity ta <=? index) && negb (dynamic_size ta) then
    raise IndexError
  else if negb (bool_decide (dtype_of value = dtype ta)) then
    raise ElementTypeError
  else if index <? capacity ta then
    ret (mkTensorArray (dtype ta) (dynamic_size ta)
           (<[Z.to_nat index := Some value]> (slots ta)))
  else
    ret (mkTensorArray (dtype ta) (dynamic_size ta)
           (slots ta ++ replicate (Z.to_nat index - length (slots ta))%nat None
                     ++ [Some value])).

(** The values of the slots in order, when every slot is written. *)
Fixpoint written (l : list (option Value)) : option (list Value) :=
  match l with
  | [] => Some []
  | Some v :: l' =>
      match written l' with
      | Some vs => Some (v :: vs)
      | None => None
      end
  | None :: _ => None
  end.

(** Modelled from the spec: [pack(buffer)]: "stacks slots 0..capacity-1 in
    order along a new leading dimension; fails with IncompleteError if any
    slot unwritten". *)
Definition pack (ta : TensorArray) : M Value :=
  let* _ := emit EvPack in
  match written (slots ta) with
  | Some vs => ret (stack (dtype ta) vs)
  | None => raise IncompleteError
  end.

#[global] Instance buffer_LoopState : LoopState TensorArray :=
  fun ta => [dtype ta].

End tensor_array_ops.

(** ** [control_flow_ops]: the bounded iteration construct *)

Module control_flow_ops.

(** Modelled from the spec: [While(cond, body, loop_vars, ...)], the
    construct of section 4.2: "repeatedly evaluates tuple := body(tuple)
    while predicate(tuple) holds, starting from initialTuple; returns the
    final tuple for which the predicate is false.  Zero iterations is
    legal", and "fails with TypeMismatchError if body's output tuple
    shape-of-types differs from its input".  The three knobs are
    configuration of the execution engine and take no part in the value.
    The source imposes no iteration cap, so the loop is driven by [fuel]:
    one unit per iteration of the body. *)
Fixpoint While {S : Type} `{LoopState S} (fuel : nat) (cond : S -> bool)
    (body : S -> M S) (loop_vars : S) (parallel_iterations : Z)
    (back_prop swap_memory : bool) : M S :=
  if cond loop_vars then
    match fuel with
    | O => (OutOfFuel, [])
    | Datatypes.S fuel' =>
        let* next := body loop_vars in
        if bool_decide (element_types next = element_types loop_vars) then
          While fuel' cond body next parallel_iterations back_prop swap_memory
        else raise TypeMismatchError
    end
  else ret loop_vars.

End control_flow_ops.

(** ** [functional_ops]: the four combinators *)

Import ops array_ops constant_op tensor_array_ops control_flow_ops.

(** The loop body [compute(i, a)] of [foldl]. *)
Definition foldl_compute (fn : PyObject) (elems_ta : TensorArray)
    (vars : Z * Value) : M (Z * Value) :=
  let (i, a) := vars in
  let* x := read elems_ta i in
  let* a := call2 fn a x in
  ret (i + 1, a).

(** [foldl(fn, elems, initializer=None, parallel_iterations=10,
    back_prop=True, swap_memory=False, name=None)]; [fuel] bounds the
    iterations of its loop. *)
Definition foldl (fuel : nat) (fn : PyObject) (elems : Value)
    (initializer : option Value) (parallel_iterations : Z)
    (back_prop swap_memory : bool) (name : option string) : M Value :=
  op_scope [elems] name "foldl" (fun name =>
    if negb (callable fn) then raise (TypeError "fn must be callable.") else
    (* Convert elems to tensor array. *)
    let* n := shape0 elems in
    let* elems_ta := allocate (dtype_of elems) n false in
    let* elems_ta := unpack elems_ta elems in
    let* (i, a) :=
      match initializer with
      | None =>
          let* a := read elems_ta 0 in
          ret (constant 1, a)
      | Some init =>
          ret (constant 0, convert_to_tensor init)
      end in
    let* (_, r_a) :=
      While fuel (fun '(i, a) => i <? n) (foldl_compute fn elems_ta) (i, a)
            parallel_iterations back_prop swap_memory in
    ret r_a).

(** The loop body [compute(i, a)] of [foldr]. *)
Definition foldr_compute (fn : PyObject) (elems_ta : TensorArray)
    (vars : Z * Value) : M (Z * Value) :=
  let (i, a) := vars in
  let i := i - 1 in
  let* x := read elems_ta i in
  let* a := call2 fn a x in
  ret (i, a).

(** [foldr(fn, elems, initializer=None, parallel_iterations=10,
    back_prop=True, swap_memory=False, name=None)]. *)
Definition foldr (fuel : nat) (fn : PyObject) (elems : Value)
    (initializer : option Value) (parallel_iterations : Z)
    (back_prop swap_memory : bool) (name : option string) : M Value :=
  op_scope [elems] name "foldr" (fun name =>
    if negb (callable fn) then raise (TypeError "fn must be callable.") else
    (* Convert elems to tensor array. *)
    let* n := shape0 elems in
    let* elems_ta := allocate (dtype_of elems) n false in
    let* elems_ta := unpack elems_ta elems in
    let* (i, a) :=
      match initializer with
      | None =>
          let i := n - 1 in
          let* a := read elems_ta i in
          ret (i, a)
      | Some init =>
          ret (n, convert_to_tensor init)
      end in
    let* (_, r_a) :=
      While fuel (fun '(i, a) => i >? 0) (foldr_compute fn elems_ta) (i, a)
            parallel_iterations back_prop swap_memory in
    ret r_a).

(** The loop body [compute(i, ta)] of [map_fn]. *)
Definition map_compute (fn : PyObject) (elems_ta : TensorArray)
    (vars : Z * TensorArray) : M (Z * TensorArray) :=
  let (i, ta) := vars in
  let* x := read elems_ta i in
  let* y := call1 fn x in
  let* ta := write ta i y in
  ret (i + 1, ta).

(** [map_fn(fn, elems, dtype=None, parallel_iterations=10, back_prop=True,
    swap_memory=False, name=None)]. *)
Definition map_fn (fuel : nat) (fn : PyObject) (elems : Value)
    (dtype : option DType) (parallel_iterations : Z)
    (back_prop swap_memory : bool) (name : option string) : M Value :=
  op_scope [elems] name "map" (fun name =>
    if negb (callable fn) then raise (TypeError "fn must be callable.") else
    let dtype := match dtype with Some dt => dt | None => dtype_of elems end in
    (* Convert elems to tensor array. *)
    let* n := shape0 elems in
    let* elems_ta := allocate (dtype_of elems) n false in
    let* elems_ta := unpack elems_ta elems in
    let i := constant 0 in
    let* acc_ta := allocate dtype n false in
    let* (_, r_a) :=
      While fuel (fun '(i, a) => i <? n) (map_compute fn elems_ta) (i, acc_ta)
            parallel_iterations back_prop swap_memory in
    pack r_a).

(** The loop body [compute(i, a, ta)] of [scan]. *)
Definition scan_compute (fn : PyObject) (elems_ta : TensorArray)
    (vars : Z * Value * TensorArray) : M (Z * Value * TensorArray) :=
  let '(i, a, ta) := vars in
  let* x := read elems_ta i in
  let* a := call2 fn a x in
  let* ta := write ta i a in
  ret (i + 1, a, ta).

(** [scan(fn, elems, initializer=None, parallel_iterations=10,
    back_prop=True, swap_memory=False, name=None)]. *)
Definition scan (fuel : nat) (fn : PyObject) (elems : Value)
    (initializer : option Value) (parallel_iterations : Z)
    (back_prop swap_memory : bool) (name : option string) : M Value :=
  op_scope [elems] name "scan" (fun name =>
    if negb (callable fn) then raise (TypeError "fn must be callable.") else
    (* Convert elems to tensor array. *)
    let* n := shape0 elems in
    let* elems_ta := allocate (dtype_of elems) n false in
    let* elems_ta := unpack elems_ta elems in
    let* (i, a) :=
      match initializer with
      | None =>
          let* a := read elems_ta 0 in
          ret (constant 1, a)
      | Some init =>
          ret (constant 0, convert_to_tensor init)
      end in
    (* Create a tensor array to store the intermediate values. *)
    let* acc_ta := allocate (dtype_of a) n false in
    let* acc_ta :=
      match initializer with
      | None => write acc_ta 0 a
      | Some _ => ret acc_ta
      end in
    let* (_, _, r_a) :=
      While fuel (fun '(i, a, ta) => i <? n) (scan_compute fn elems_ta)
            (i, a, acc_ta) parallel_iterations back_prop swap_memory in
    pack r_a).

(** ** The shape function of [SymbolicGradient] *)

(** A graph tensor as the shape function sees it: a handle whose static shape
    [get_shape()] returns.  The representation of shapes is a parameter. *)
Record Tensor (Shape : Type) := mkTensor {
  get_shape : Shape
}.
Arguments mkTensor {Shape} _.
Arguments get_shape {Shape} _.

(** A graph operation with its input and output tensors ([op.inputs],
    [op.outputs]). *)
Record Operation (Shape : Type) := mkOperation {
  inputs : list (Tensor Shape);
  outputs : list (Tensor Shape)
}.
Arguments mkOperation {Shape} _ _.
Arguments inputs {Shape} _.
Arguments outputs {Shape} _.

(** Python's [l[i]] for an index produced by [range]: [IndexError] past the
    end. *)
Definition getitem {A : Type} (l : list A) (i : nat) : M A :=
  match l !! i with
  | Some x => ret x
  | None => raise IndexError
  end.

(** The list comprehension [[body(i) for i in indices]], evaluated left to
    right; the first failure ends it. *)
Fixpoint comprehension {A : Type} (body : nat -> M A) (indices : list nat)
    : M (list A) :=
  match indices with
  | [] => ret []
  | i :: indices' =>
      let* x := body i in
      let* xs := comprehension body indices' in
      ret (x :: xs)
  end.

(** [_symbolic_gradient_shape(op)]:
    [[op.inputs[i].get_shape() for i in range(len(op.outputs))]]. *)
Definition _symbolic_gradient_shape {Shape : Type} (op : Operation Shape)
    : M (list Shape) :=
  comprehension
    (fun i => let* t := getitem (inputs op) i in ret (get_shape t))
    (seq 0 (length (outputs op))).

(** The default arguments of the Python signatures. *)
Definition default_parallel_iterations : Z := 10.
Definition default_back_prop : bool := true.
Definition default_swap_memory : bool := false.

(** Integer tensors for the concrete scenarios. *)
Definition int32 (x : Z) : Value := Scalar DT_INT32 x.
Definition vector (xs : list Z) : Value := Stacked DT_INT32 (map int32 xs).

Definition lift2 (op : Z -> Z -> Z) (a x : Value) : Value :=
  match a, x with
  | Scalar dt p, Scalar _ q => Scalar dt (op p q)
  | _, _ => a
  end.

Definition lift1 (op : Z -> Z) (x : Value) : Value :=
  match x with
  | Scalar dt p => Scalar dt (op p)
  | _ => x
  end.

(** ** Reference folds on lists

    [fold_left f xs a] of the Standard Library is the strict left-to-right
    fold [f (... (f (f a x0) x1) ...) xn-1]. *)

(** The successive accumulators of a left-to-right fold from [a] over [xs]. *)
Fixpoint scanl (f : Value -> Value -> Value) (a : Value) (xs : list Value)
    : list Value :=
  match xs with
  | [] => []
  | x :: xs' => f a x :: scanl f (f a x) xs'
  end.

(** Events of the loop iterations that read slots [i, i+1, ...] of [rest]. *)
Fixpoint fold_steps (i : nat) (rest : list Value) : list Event :=
  match rest with
  | [] => []
  | _ :: rest' => EvRead (Z.of_nat i) :: EvApply :: fold_steps (S i) rest'
  end.

(** Events of the iterations of [foldr] over the slots of [pre], last first. *)
Definition foldr_steps (pre : list Value) : list Event :=
  flat_map (fun k => [EvRead (Z.of_nat k); EvApply]) (rev (seq 0 (length pre))).

Fixpoint map_steps (f : Value -> Value) (i : nat) (rest : list Value)
    : list Event :=
  match rest with
  | [] => []
  | x :: rest' =>
      EvRead (Z.of_nat i) :: EvApply :: EvWrite (Z.of_nat i) (f x)
        :: map_steps f (S i) rest'
  end.

Fixpoint scan_steps (f : Value -> Value -> Value) (i : nat) (a : Value)
    (rest : list Value) : list Event :=
  match rest with
  | [] => []
  | x :: rest' =>
      EvRead (Z.of_nat i) :: EvApply :: EvWrite (Z.of_nat i) (f a x)
        :: scan_steps f (S i) (f a x) rest'
  end.

(** The events every combinator performs before its accumulator is set up:
    the shape query, the allocation of the input buffer and its unpacking. *)
Definition prologue (elems : Value) (n : Z) : list Event :=
  [EvShape; EvAllocate (dtype_of elems) n false; EvUnpack].

(** The element type [map_fn] declares for its output buffer:
    [dtype if dtype else elems.dtype]. *)
Definition map_out_dtype (dtype : option DType) (elems : Value) : DType :=
  match dtype with Some d => d | None => dtype_of elems end.

(** ** Reference outcomes of the loops

    What a loop yields as a function of the values it reads, in the order it
    reads them: the accumulator of the two folds, the written values of
    [map_fn] and of [scan]. *)

(** The outcome with its returned value mapped. *)
Definition outcome_map {A B : Type} (g : A -> B) (o : Outcome A) : Outcome B :=
  match o with
  | Return a => Return (g a)
  | Raise e => Raise e
  | OutOfFuel => OutOfFuel
  end.

(** The fold of [vals] from [a] by [fn], one unit of fuel per element, with
    the check that the accumulator keeps its element type. *)
Fixpoint fold_outcome (fn : PyObject) (fuel : nat) (a : Value)
    (vals : list Value) {struct vals} : Outcome Value :=
  match vals with
  | [] => Return a
  | x :: vals' =>
      match fuel with
      | O => OutOfFuel
      | S fuel' =>
          match outcome (call2 fn a x) with
          | Return a' =>
              if bool_decide (dtype_of a' = dtype_of a) then
                fold_outcome fn fuel' a' vals'
              else Raise TypeMismatchError
          | Raise e => Raise e
          | OutOfFuel => OutOfFuel
          end
      end
  end.

(** [fn] of every value of [vals], each of the element type [odt] of the
    output buffer. *)
Fixpoint map_outcome (fn : PyObject) (odt : DType) (fuel : nat)
    (vals : list Value) {struct vals} : Outcome (list Value) :=
  match vals with
  | [] => Return []
  | x :: vals' =>
      match fuel with
      | O => OutOfFuel
      | S fuel' =>
          match outcome (call1 fn x) with
          | Return y =>
              if bool_decide (dtype_of y = odt) then
                outcome_map (cons y) (map_outcome fn odt fuel' vals')
              else Raise ElementTypeError
          | Raise e => Raise e
          | OutOfFuel => OutOfFuel
          end
      end
  end.

(** The successive accumulators of the fold of [vals] from [a] by [fn], each
    of the element type [odt] of the output buffer. *)
Fixpoint scan_outcome (fn : PyObject) (odt : DType) (fuel : nat) (a : Value)
    (vals : list Value) {struct vals} : Outcome (list Value) :=
  match vals with
  | [] => Return []
  | x :: vals' =>
      match fuel with
      | O => OutOfFuel
      | S fuel' =>
          match outcome (call2 fn a x) with
          | Return a' =>
              if bool_decide (dtype_of a' = odt) then
                outcome_map (cons a') (scan_outcome fn odt fuel' a' vals')
              else Raise ElementTypeError
          | Raise e => Raise e
          | OutOfFuel => OutOfFuel
          end
      end
  end.

(** The number of applications of [fn] and of reads in a run. *)
Fixpoint applications (t : list Event) : nat :=
  match t with
  | [] => 0
  | EvApply :: t' => S (applications t')
  | _ :: t' => applications t'
  end.

Fixpoint reads (t : list Event) : list Z :=
  match t with
  | [] => []
  | EvRead i :: t' => i :: reads t'
  | _ :: t' => reads t'
  end.

Fixpoint writes (t : list Event) : list Z :=
  match t with
  | [] => []
  | EvWrite i _ :: t' => i :: writes t'
  | _ :: t' => writes t'
  end.

(** ** The construction monad *)

Lemma bind_Return {A B} (a : A) (t : list Event) (k : A -> M B) :
  bind (Return a, t) k = (fst (k a), t ++ snd (k a)).
Proof. unfold bind. destruct (k a); reflexivity. Qed.

(** A bind returns only if both of its parts do. *)
Lemma bind_outcome_Return {A B} (m : M A) (k : A -> M B) (b : B) :
  outcome (bind m k) = Return b ->
  exists a, outcome m = Return a /\ outcome (k a) = Return b.
Proof.
  destruct m as [[a | e |] t]; cbn; try discriminate.
  intros H. exists a. split; [reflexivity |].
  destruct (k a) as [o t']. exact H.
Qed.

Lemma bind_ext {A B} (m : M A) (k1 k2 : A -> M B) :
  (forall a, k1 a = k2 a) -> bind m k1 = bind m k2.
Proof.
  intros Hk. destruct m as [[a | e |] t]; cbn; [rewrite Hk |..]; reflexivity.
Qed.

Lemma outcome_bind {A B} (m : M A) (k : A -> M B) :
  outcome (bind m k)
  = match outcome m with
    | Return a => outcome (k a)
    | Raise e => Raise e
    | OutOfFuel => OutOfFuel
    end.
Proof.
  destruct m as [[a | e |] t]; cbn; try reflexivity.
  destruct (k a); reflexivity.
Qed.

Lemma outcome_bind_Return {A B} (a : A) (t : list Event) (k : A -> M B) :
  outcome (bind (Return a, t) k) = outcome (k a).
Proof. rewrite outcome_bind. reflexivity. Qed.

Lemma outcome_bind_ret {A B} (a : A) (k : A -> M B) :
  outcome (bind (ret a) k) = outcome (k a).
Proof. apply outcome_bind_Return. Qed.

(** ** Buffer operations *)

Lemma capacity_mk (dt : DType) (dyn : bool) (l : list (option Value)) :
  capacity (mkTensorArray dt dyn l) = Z.of_nat (length l).
Proof. reflexivity. Qed.

Lemma read_written (ta : TensorArray) (k : nat) (x : Value) :
  slots ta !! k = Some (Some x) ->
  read ta (Z.of_nat k) = (Return x, [EvRead (Z.of_nat k)]).
Proof.
  intros Hk. unfold read, capacity.
  pose proof (lookup_lt_Some _ _ _ Hk) as Hlt.
  replace (Z.of_nat k <? 0) with false by (symmetry; apply Z.ltb_ge; lia).
  replace (Z.of_nat (length (slots ta)) <=? Z.of_nat k) with false
    by (symmetry; apply Z.leb_gt; lia).
  rewrite Nat2Z.id, Hk. reflexivity.
Qed.

Lemma read_out_of_range (ta : TensorArray) (i : Z) :
  i < 0 \/ capacity ta <= i ->
  read ta i = (Raise IndexError, [EvRead i]).
Proof.
  intros Hi. unfold read.
  replace ((i <? 0) || (capacity ta <=? i)) with true; [reflexivity |].
  symmetry. apply orb_true_iff.
  destruct Hi; [left; apply Z.ltb_lt | right; apply Z.leb_le]; assumption.
Qed.

Lemma written_map_Some (vs : list Value) : written (map Some vs) = Some vs.
Proof. induction vs as [| v vs IH]; cbn; [| rewrite IH]; reflexivity. Qed.

Lemma write_in_range (dt : DType) (l1 l2 : list (option Value))
    (o : option Value) (v : Value) :
  dtype_of v = dt ->
  write (mkTensorArray dt false (l1 ++ o :: l2)) (Z.of_nat (length l1)) v
  = (Return (mkTensorArray dt false (l1 ++ Some v :: l2)),
     [EvWrite (Z.of_nat (length l1)) v]).
Proof.
  intros Hdt. unfold write. rewrite capacity_mk, length_app.
  cbn [length dtype dynamic_size slots].
  replace (Z.of_nat (length l1) <? 0) with false
    by (symmetry; apply Z.ltb_ge; lia).
  replace (Z.of_nat (length l1 + S (length l2)) <=? Z.of_nat (length l1))
    with false by (symmetry; apply Z.leb_gt; lia).
  rewrite bool_decide_eq_true_2 by assumption.
  replace (Z.of_nat (length l1) <? Z.of_nat (length l1 + S (length l2)))
    with true by (symmetry; apply Z.ltb_lt; lia).
  rewrite Nat2Z.id.
  replace (<[length l1:=Some v]> (l1 ++ o :: l2)) with (l1 ++ Some v :: l2).
  - reflexivity.
  - symmetry. rewrite insert_app_r_alt by lia.
    rewrite Nat.sub_diag. reflexivity.
Qed.

Lemma write_wrong_dtype (ta : TensorArray) (i : Z) (v : Value) :
  dtype_of v <> dtype ta ->
  forall ta', outcome (write ta i v) <> Return ta'.
Proof.
  intros Hdt ta'. unfold write, outcome. cbn.
  destruct (i <? 0); [discriminate |].
  destruct ((capacity ta <=? i) && negb (dynamic_size ta)); [discriminate |].
  rewrite bool_decide_eq_false_2 by assumption. discriminate.
Qed.

Lemma lookup_unpacked (pre rest : list Value) (x : Value) :
  map Some (pre ++ x :: rest) !! length pre = Some (Some x).
Proof.
  rewrite map_app. rewrite lookup_app_r by (rewrite length_map; lia).
  rewrite length_map, Nat.sub_diag. reflexivity.
Qed.

Lemma shape0_Stacked (dt : DType) (xs : list Value) :
  shape0 (Stacked dt xs) = (Return (Z.of_nat (length xs)), [EvShape]).
Proof. reflexivity. Qed.

Lemma allocate_eq (dt : DType) (n : Z) (dyn : bool) :
  allocate dt n dyn
  = (Return (mkTensorArray dt dyn (replicate (Z.to_nat n) None)),
     [EvAllocate dt n dyn]).
Proof. reflexivity. Qed.

Lemma unpack_Stacked (ta : TensorArray) (dt : DType) (xs : list Value) :
  unpack ta (Stacked dt xs)
  = (Return (mkTensorArray (dtype ta) (dynamic_size ta) (map Some xs)),
     [EvUnpack]).
Proof. reflexivity. Qed.

(** A write into an empty slot of a fixed-size buffer returns only the buffer
    with that slot filled. *)
Lemma write_returns (dt : DType) (l1 l2 : list (option Value))
    (o : option Value) (v : Value) (ta' : TensorArray) :
  outcome (write (mkTensorArray dt false (l1 ++ o :: l2))
                 (Z.of_nat (length l1)) v) = Return ta' ->
  ta' = mkTensorArray dt false (l1 ++ Some v :: l2).
Proof.
  intros H. destruct (decide (dtype_of v = dt)) as [Hd | Hd].
  - rewrite write_in_range in H by exact Hd. cbn in H. congruence.
  - exfalso. eapply write_wrong_dtype; [| exact H]. exact Hd.
Qed.


Lemma fold_left_rev (f : Value -> Value -> Value) (l : list Value) (a : Value) :
  fold_left f (rev l) a = fold_right (fun x acc => f acc x) a l.
Proof.
  induction l as [| x l IH]; [reflexivity |].
  cbn [rev fold_right]. rewrite fold_left_app, IH. reflexivity.
Qed.

(** One iteration of [foldl]: [a = fn(a, read(i))], then [i + 1]. *)

Lemma scanl_length (f : Value -> Value -> Value) (xs : list Value) :
  forall a, length (scanl f a xs) = length xs.
Proof.
  induction xs as [| x xs IH]; intros a; cbn; [| rewrite IH]; reflexivity.
Qed.

(** Slot [i] of the accumulators is the fold of the first [i + 1] elements. *)
Lemma scanl_lookup (f : Value -> Value -> Value) (xs : list Value) :
  forall (a : Value) (i : nat),
    (i < length xs)%nat ->
    scanl f a xs !! i = Some (fold_left f (take (S i) xs) a).
Proof.
  induction xs as [| x xs IH]; intros a i Hi; [cbn in Hi; lia |].
  destruct i as [| i]; cbn [scanl].
  - cbn. rewrite take_0. reflexivity.
  - cbn [lookup list_lookup]. rewrite IH by (cbn in Hi; lia). reflexivity.
Qed.

(** ** One iteration of each loop body *)

Section Steps.
Variables (dt : DType) (xs : list Value).

Lemma read_unpacked (i : nat) (x : Value) :
  xs !! i = Some x ->
  read (mkTensorArray dt false (map Some xs)) (Z.of_nat i)
  = (Return x, [EvRead (Z.of_nat i)]).
Proof.
  intros Hx. apply read_written. cbn [slots].
  rewrite list_lookup_fmap, Hx. reflexivity.
Qed.

(** One iteration of [foldl]: [a = fn(a, read(i))], then [i + 1]. *)
Lemma foldl_compute_step (f : Value -> Value -> Value) (i : nat) (a x : Value) :
  xs !! i = Some x ->
  foldl_compute (Lambda2 f) (mkTensorArray dt false (map Some xs))
                (Z.of_nat i, a)
  = (Return (Z.of_nat i + 1, f a x), [EvRead (Z.of_nat i); EvApply]).
Proof.
  intros Hx. unfold foldl_compute. rewrite (read_unpacked i x Hx).
  reflexivity.
Qed.

(** One iteration of [foldr]: [i -= 1], then [a = fn(a, read(i))]. *)
Lemma foldr_compute_step (f : Value -> Value -> Value) (i : nat) (a x : Value) :
  xs !! i = Some x ->
  foldr_compute (Lambda2 f) (mkTensorArray dt false (map Some xs))
                (Z.of_nat (S i), a)
  = (Return (Z.of_nat i, f a x), [EvRead (Z.of_nat i); EvApply]).
Proof.
  intros Hx. unfold foldr_compute.
  replace (Z.of_nat (S i) - 1) with (Z.of_nat i) by lia.
  rewrite (read_unpacked i x Hx). reflexivity.
Qed.

(** One iteration of [map_fn]: [ta = ta.write(i, fn(read(i)))], then
    [i + 1]. *)
Lemma map_compute_step (f : Value -> Value) (odt : DType)
    (l1 l2 : list (option Value)) (o : option Value) (x : Value) :
  xs !! length l1 = Some x ->
  dtype_of (f x) = odt ->
  map_compute (Lambda1 f) (mkTensorArray dt false (map Some xs))
              (Z.of_nat (length l1), mkTensorArray odt false (l1 ++ o :: l2))
  = (Return (Z.of_nat (length l1) + 1,
             mkTensorArray odt false (l1 ++ Some (f x) :: l2)),
     [EvRead (Z.of_nat (length l1)); EvApply;
      EvWrite (Z.of_nat (length l1)) (f x)]).
Proof.
  intros Hx Hdt. unfold map_compute. rewrite (read_unpacked _ x Hx).
  cbn [bind call1 emit ret app fst snd].
  rewrite write_in_range by exact Hdt. reflexivity.
Qed.

(** One iteration of [scan]: [a = fn(a, read(i))],
    [ta = ta.write(i, a)], then [i + 1]. *)
Lemma scan_compute_step (f : Value -> Value -> Value) (odt : DType)
    (l1 l2 : list (option Value)) (o : option Value) (a x : Value) :
  xs !! length l1 = Some x ->
  dtype_of (f a x) = odt ->
  scan_compute (Lambda2 f) (mkTensorArray dt false (map Some xs))
               (Z.of_nat (length l1), a,
                mkTensorArray odt false (l1 ++ o :: l2))
  = (Return (Z.of_nat (length l1) + 1, f a x,
             mkTensorArray odt false (l1 ++ Some (f a x) :: l2)),
     [EvRead (Z.of_nat (length l1)); EvApply;
      EvWrite (Z.of_nat (length l1)) (f a x)]).
Proof.
  intros Hx Hdt. unfold scan_compute. rewrite (read_unpacked _ x Hx).
  cbn [bind call2 emit ret app fst snd].
  rewrite write_in_range by exact Hdt. reflexivity.
Qed.

End Steps.

(** ** The loop construct *)

Section WhileFacts.
Context {S : Type} `{LoopState S}.
Variables (cond : S -> bool) (body : S -> M S).
Variables (parallel_iterations : Z) (back_prop swap_memory : bool).

(** While [cond] is false the loop returns its variables, whatever the fuel. *)
Lemma While_exit (fuel : nat) (vars : S) :
  cond vars = false ->
  While fuel cond body vars parallel_iterations back_prop swap_memory
  = ret vars.
Proof. intros Hc. destruct fuel; cbn [While]; rewrite Hc; reflexivity. Qed.

Lemma While_out_of_fuel (vars : S) :
  cond vars = true ->
  While 0 cond body vars parallel_iterations back_prop swap_memory
  = (OutOfFuel, []).
Proof. intros Hc. cbn [While]. rewrite Hc. reflexivity. Qed.

Lemma While_step (fuel : nat) (vars : S) :
  cond vars = true ->
  While (Datatypes.S fuel) cond body vars
        parallel_iterations back_prop swap_memory
  = let* next := body vars in
    if bool_decide (element_types next = element_types vars) then
      While fuel cond body next parallel_iterations back_prop swap_memory
    else raise TypeMismatchError.
Proof. intros Hc. cbn [While]. rewrite Hc. reflexivity. Qed.

(** An iteration whose body returns variables of the same element types is
    followed by the rest of the loop. *)
Lemma While_unroll (fuel : nat) (vars next : S) (t : list Event) :
  cond vars = true ->
  body vars = (Return next, t) ->
  element_types next = element_types vars ->
  While (Datatypes.S fuel) cond body vars
        parallel_iterations back_prop swap_memory
  = let* next' := (Return next, t) in
    While fuel cond body next' parallel_iterations back_prop swap_memory.
Proof.
  intros Hc Hbody Hty. rewrite While_step by exact Hc.
  rewrite Hbody, !bind_Return.
  rewrite bool_decide_eq_true_2 by exact Hty. reflexivity.
Qed.

(** A loop that returns after an iteration has passed the check of the
    element types. *)
Lemma While_step_returns (fuel : nat) (vars s : S) :
  cond vars = true ->
  outcome (While (Datatypes.S fuel) cond body vars
                 parallel_iterations back_prop swap_memory) = Return s ->
  exists next : S,
    outcome (body vars) = Return next
    /\ element_types next = element_types vars
    /\ outcome (While fuel cond body next
                      parallel_iterations back_prop swap_memory) = Return s.
Proof.
  intros Hc Hs. rewrite While_step in Hs by exact Hc.
  apply bind_outcome_Return in Hs as (next & Hbody & Hs).
  exists next. split; [exact Hbody |].
  destruct (bool_decide (element_types next = element_types vars)) eqn:Hty.
  - split; [apply bool_decide_eq_true in Hty; exact Hty | exact Hs].
  - discriminate.
Qed.

(** The loop takes the same iterations whatever the knobs are. *)
Lemma While_knobs (pi1 pi2 : Z) (bp1 bp2 sm1 sm2 : bool) (fuel : nat) :
  forall vars : S,
    While fuel cond body vars pi1 bp1 sm1
    = While fuel cond body vars pi2 bp2 sm2.
Proof.
  induction fuel as [| fuel IH]; intros vars; cbn [While].
  - reflexivity.
  - destruct (cond vars); [| reflexivity].
    apply bind_ext. intros next.
    destruct (bool_decide _); [apply IH | reflexivity].
Qed.

End WhileFacts.

(** ** The loops of the combinators *)

Lemma types_index_value (i j : Z) (a b : Value) :
  dtype_of a = dtype_of b ->
  element_types (i, a) = element_types (j, b).
Proof.
  intros Hab.
  change ([DT_INT32] ++ [dtype_of a] = [DT_INT32] ++ [dtype_of b]).
  rewrite Hab. reflexivity.
Qed.

Lemma types_index_buffer (i j : Z) (odt : DType)
    (l1 l2 : list (option Value)) :
  element_types (i, mkTensorArray odt false l1)
  = element_types (j, mkTensorArray odt false l2).
Proof. reflexivity. Qed.

Lemma types_index_value_buffer (i j : Z) (a b : Value) (odt : DType)
    (l1 l2 : list (option Value)) :
  dtype_of a = dtype_of b ->
  element_types (i, a, mkTensorArray odt false l1)
  = element_types (j, b, mkTensorArray odt false l2).
Proof.
  intros Hab.
  change (([DT_INT32] ++ [dtype_of a]) ++ [odt]
          = ([DT_INT32] ++ [dtype_of b]) ++ [odt]).
  rewrite Hab. reflexivity.
Qed.

Section Loops.
Variables (dt : DType) (xs : list Value).
Variables (parallel_iterations : Z) (back_prop swap_memory : bool).

(** From index [length pre] and accumulator [a], the loop of [foldl] folds
    the remaining slots left to right and stops with the index at [n]. *)
Lemma foldl_loop (f : Value -> Value -> Value) (adt : DType)
    (rest : list Value) :
  forall (pre : list Value) (a : Value) (fuel : nat),
    xs = pre ++ rest ->
    (length rest <= fuel)%nat ->
    dtype_of a = adt ->
    Forall (fun v => dtype_of v = adt) (scanl f a rest) ->
    While fuel (fun '(i, a) => i <? Z.of_nat (length xs))
          (foldl_compute (Lambda2 f) (mkTensorArray dt false (map Some xs)))
          (Z.of_nat (length pre), a) parallel_iterations back_prop swap_memory
    = (Return (Z.of_nat (length xs), fold_left f rest a),
       fold_steps (length pre) rest).
Proof.
  induction rest as [| x rest IH]; intros pre a fuel Hxs Hfuel Ha Hdt.
  - rewrite app_nil_r in Hxs. subst pre.
    rewrite While_exit; [reflexivity | apply Z.ltb_irrefl].
  - destruct fuel as [| fuel]; [cbn in Hfuel; lia |].
    cbn [scanl] in Hdt. apply Forall_cons in Hdt as [Hfax Hdt].
    rewrite (While_unroll _ _ _ _ _ fuel _
               (Z.of_nat (length pre) + 1, f a x)
               [EvRead (Z.of_nat (length pre)); EvApply]).
    + replace (Z.of_nat (length pre) + 1)
        with (Z.of_nat (length (pre ++ [x])))
        by (rewrite length_app; cbn; lia).
      cbn [bind].
      rewrite (IH (pre ++ [x]) (f a x) fuel);
        [| rewrite <- app_assoc; exact Hxs | cbn in Hfuel; lia
         | exact Hfax | exact Hdt].
      cbn [fold_left fold_steps app]. rewrite length_app, Nat.add_1_r.
      reflexivity.
    + apply Z.ltb_lt. rewrite Hxs, length_app. cbn. lia.
    + apply foldl_compute_step. rewrite Hxs.
      apply list_lookup_middle. reflexivity.
    + apply types_index_value. congruence.
Qed.

(** From index [length pre] down to 0, the loop of [foldr] folds the slots
    of [pre] right to left and stops with the index at 0. *)
Lemma foldr_loop (f : Value -> Value -> Value) (adt : DType)
    (post : list Value) :
  forall (pre : list Value) (a : Value) (fuel : nat),
    xs = pre ++ post ->
    (length pre <= fuel)%nat ->
    dtype_of a = adt ->
    Forall (fun v => dtype_of v = adt) (scanl f a (rev pre)) ->
    While fuel (fun '(i, a) => i >? 0)
          (foldr_compute (Lambda2 f) (mkTensorArray dt false (map Some xs)))
          (Z.of_nat (length pre), a) parallel_iterations back_prop swap_memory
    = (Return (0, fold_left f (rev pre) a), foldr_steps pre).
Proof.
  intros pre. revert post.
  induction pre as [| x pre IH] using rev_ind;
    intros post a fuel Hxs Hfuel Ha Hdt.
  - rewrite While_exit; reflexivity.
  - rewrite length_app in Hfuel. cbn in Hfuel.
    destruct fuel as [| fuel]; [lia |].
    rewrite rev_app_distr in Hdt. cbn [rev app scanl] in Hdt.
    apply Forall_cons in Hdt as [Hfax Hdt].
    replace (Z.of_nat (length (pre ++ [x]))) with (Z.of_nat (S (length pre)))
      by (rewrite length_app; cbn; lia).
    rewrite (While_unroll _ _ _ _ _ fuel _
               (Z.of_nat (length pre), f a x)
               [EvRead (Z.of_nat (length pre)); EvApply]).
    + cbn [bind].
      rewrite (IH ([x] ++ post) (f a x) fuel);
        [| rewrite Hxs, <- app_assoc; reflexivity | lia
         | exact Hfax | exact Hdt].
      rewrite rev_app_distr. cbn [rev app fold_left].
      unfold foldr_steps. rewrite length_app. cbn [length].
      rewrite Nat.add_1_r, seq_S, rev_app_distr. reflexivity.
    + apply Z.gtb_lt. lia.
    + apply foldr_compute_step. rewrite Hxs, <- app_assoc.
      apply list_lookup_middle. reflexivity.
    + apply types_index_value. congruence.
Qed.

(** The loop of [map_fn] writes [f] of every remaining slot, in order, into
    the empty slots of the output buffer. *)
Lemma map_loop (f : Value -> Value) (odt : DType) (rest : list Value) :
  forall (pre : list Value) (out : list Value) (fuel : nat),
    xs = pre ++ rest ->
    length out = length pre ->
    (length rest <= fuel)%nat ->
    Forall (fun x => dtype_of (f x) = odt) rest ->
    While fuel (fun '(i, a) => i <? Z.of_nat (length xs))
          (map_compute (Lambda1 f) (mkTensorArray dt false (map Some xs)))
          (Z.of_nat (length pre),
           mkTensorArray odt false
             (map Some out ++ replicate (length rest) None))
          parallel_iterations back_prop swap_memory
    = (Return (Z.of_nat (length xs),
               mkTensorArray odt false (map Some (out ++ map f rest))),
       map_steps f (length pre) rest).
Proof.
  induction rest as [| x rest IH]; intros pre out fuel Hxs Hout Hfuel Hdt.
  - rewrite app_nil_r in Hxs. subst pre.
    rewrite While_exit by apply Z.ltb_irrefl.
    cbn. rewrite !app_nil_r. reflexivity.
  - destruct fuel as [| fuel]; [cbn in Hfuel; lia |].
    apply Forall_cons in Hdt as [Hfx Hdt].
    assert (length pre = length (map Some out)) as Hlen
      by (rewrite length_map; congruence).
    assert (xs !! length (map Some out) = Some x) as Hx
      by (rewrite <- Hlen, Hxs; apply list_lookup_middle; reflexivity).
    assert ((Z.of_nat (length (map Some out)) <? Z.of_nat (length xs)) = true)
      as Hcond
      by (apply Z.ltb_lt; rewrite <- Hlen, Hxs, length_app; cbn; lia).
    cbn [replicate length]. rewrite Hlen.
    rewrite (While_unroll _ _ _ _ _ fuel _
               (Z.of_nat (length (map Some out)) + 1,
                mkTensorArray odt false
                  (map Some out ++ Some (f x) :: replicate (length rest) None))
               [EvRead (Z.of_nat (length (map Some out))); EvApply;
                EvWrite (Z.of_nat (length (map Some out))) (f x)]);
      [| exact Hcond
       | exact (map_compute_step dt xs f odt (map Some out)
                  (replicate (length rest) None) None x Hx Hfx)
       | apply types_index_buffer].
    rewrite <- Hlen.
    replace (Z.of_nat (length pre) + 1)
      with (Z.of_nat (length (pre ++ [x])))
      by (rewrite length_app; cbn; lia).
    replace (map Some out ++ Some (f x) :: replicate (length rest) None)
      with (map Some (out ++ [f x]) ++ replicate (length rest) None)
      by (rewrite map_app, <- app_assoc; reflexivity).
    cbn [bind].
    rewrite (IH (pre ++ [x]) (out ++ [f x]) fuel);
      [| rewrite <- app_assoc; exact Hxs | rewrite !length_app; cbn; lia
       | cbn in Hfuel; lia | exact Hdt].
    cbn [map map_steps app].
    rewrite length_app, Nat.add_1_r, <- app_assoc. reflexivity.
Qed.

(** The loop of [scan] folds the remaining slots left to right and writes
    every accumulator into the slot of the element it consumed. *)
Lemma scan_loop (f : Value -> Value -> Value) (odt : DType)
    (rest : list Value) :
  forall (pre : list Value) (out : list Value) (a : Value) (fuel : nat),
    xs = pre ++ rest ->
    length out = length pre ->
    (length rest <= fuel)%nat ->
    dtype_of a = odt ->
    Forall (fun v => dtype_of v = odt) (scanl f a rest) ->
    While fuel (fun '(i, a, ta) => i <? Z.of_nat (length xs))
          (scan_compute (Lambda2 f) (mkTensorArray dt false (map Some xs)))
          (Z.of_nat (length pre), a,
           mkTensorArray odt false
             (map Some out ++ replicate (length rest) None))
          parallel_iterations back_prop swap_memory
    = (Return (Z.of_nat (length xs), fold_left f rest a,
               mkTensorArray odt false (map Some (out ++ scanl f a rest))),
       scan_steps f (length pre) a rest).
Proof.
  induction rest as [| x rest IH]; intros pre out a fuel Hxs Hout Hfuel Ha Hdt.
  - rewrite app_nil_r in Hxs. subst pre.
    rewrite While_exit by apply Z.ltb_irrefl.
    cbn. rewrite !app_nil_r. reflexivity.
  - destruct fuel as [| fuel]; [cbn in Hfuel; lia |].
    cbn [scanl] in Hdt. apply Forall_cons in Hdt as [Hfax Hdt].
    assert (length pre = length (map Some out)) as Hlen
      by (rewrite length_map; congruence).
    assert (xs !! length (map Some out) = Some x) as Hx
      by (rewrite <- Hlen, Hxs; apply list_lookup_middle; reflexivity).
    assert ((Z.of_nat (length (map Some out)) <? Z.of_nat (length xs)) = true)
      as Hcond
      by (apply Z.ltb_lt; rewrite <- Hlen, Hxs, length_app; cbn; lia).
    cbn [replicate length]. rewrite Hlen.
    rewrite (While_unroll _ _ _ _ _ fuel _
               (Z.of_nat (length (map Some out)) + 1, f a x,
                mkTensorArray odt false
                  (map Some out
                     ++ Some (f a x) :: replicate (length rest) None))
               [EvRead (Z.of_nat (length (map Some out))); EvApply;
                EvWrite (Z.of_nat (length (map Some out))) (f a x)]);
      [| exact Hcond
       | exact (scan_compute_step dt xs f odt (map Some out)
                  (replicate (length rest) None) None a x Hx Hfax)
       | apply types_index_value_buffer; congruence].
    rewrite <- Hlen.
    replace (Z.of_nat (length pre) + 1)
      with (Z.of_nat (length (pre ++ [x])))
      by (rewrite length_app; cbn; lia).
    replace (map Some out ++ Some (f a x) :: replicate (length rest) None)
      with (map Some (out ++ [f a x]) ++ replicate (length rest) None)
      by (rewrite map_app, <- app_assoc; reflexivity).
    cbn [bind].
    rewrite (IH (pre ++ [x]) (out ++ [f a x]) (f a x) fuel);
      [| rewrite <- app_assoc; exact Hxs | rewrite !length_app; cbn; lia
       | cbn in Hfuel; lia | exact Hfax | exact Hdt].
    cbn [scanl fold_left scan_steps app].
    rewrite length_app, Nat.add_1_r, <- app_assoc. reflexivity.
Qed.

End Loops.

(** ** Runs of the combinators *)

Section Runs.
Variables (parallel_iterations : Z) (back_prop swap_memory : bool).
Variable (name : option string).

Lemma foldl_run_no_init (f : Value -> Value -> Value) (dt : DType)
    (x0 : Value) (rest : list Value) (fuel : nat) :
  (length rest <= fuel)%nat ->
  Forall (fun v => dtype_of v = dtype_of x0) (scanl f x0 rest) ->
  foldl fuel (Lambda2 f) (Stacked dt (x0 :: rest)) None
        parallel_iterations back_prop swap_memory name
  = (Return (fold_left f rest x0),
     prologue (Stacked dt (x0 :: rest)) (Z.of_nat (length (x0 :: rest)))
       ++ EvRead 0 :: fold_steps 1 rest).
Proof.
  intros Hfuel Hdt. unfold foldl, op_scope, constant, convert_to_tensor.
  cbn [callable negb shape0 leading_dim allocate unpack unstack dtype_of
       bind emit ret app fst snd dtype dynamic_size].
  pose proof (read_written (mkTensorArray dt false (map Some (x0 :: rest)))
                0%nat x0 eq_refl) as Hread.
  change (Z.of_nat 0) with 0 in Hread. rewrite Hread.
  cbn [bind ret app fst snd constant].
  pose proof (foldl_loop dt (x0 :: rest) parallel_iterations back_prop
                swap_memory f (dtype_of x0) rest [x0] x0 fuel eq_refl Hfuel
                eq_refl Hdt) as Hloop.
  change (Z.of_nat (length [x0])) with 1 in Hloop. rewrite Hloop.
  cbn [bind ret app fst snd]. rewrite ?app_nil_r. reflexivity.
Qed.

Lemma foldl_run_init (f : Value -> Value -> Value) (dt : DType)
    (xs : list Value) (init : Value) (fuel : nat) :
  (length xs <= fuel)%nat ->
  Forall (fun v => dtype_of v = dtype_of init) (scanl f init xs) ->
  foldl fuel (Lambda2 f) (Stacked dt xs) (Some init)
        parallel_iterations back_prop swap_memory name
  = (Return (fold_left f xs init),
     prologue (Stacked dt xs) (Z.of_nat (length xs)) ++ fold_steps 0 xs).
Proof.
  intros Hfuel Hdt. unfold foldl, op_scope, constant, convert_to_tensor.
  cbn [callable negb shape0 leading_dim allocate unpack unstack dtype_of
       bind emit ret app fst snd dtype dynamic_size constant convert_to_tensor].
  pose proof (foldl_loop dt xs parallel_iterations back_prop swap_memory
                f (dtype_of init) xs [] init fuel eq_refl Hfuel
                eq_refl Hdt) as Hloop.
  change (Z.of_nat (length [])) with 0 in Hloop. rewrite Hloop.
  cbn [bind ret app fst snd]. rewrite ?app_nil_r. reflexivity.
Qed.

Lemma foldr_run_no_init (f : Value -> Value -> Value) (dt : DType)
    (pre : list Value) (xl : Value) (fuel : nat) :
  (length pre <= fuel)%nat ->
  Forall (fun v => dtype_of v = dtype_of xl) (scanl f xl (rev pre)) ->
  foldr fuel (Lambda2 f) (Stacked dt (pre ++ [xl])) None
        parallel_iterations back_prop swap_memory name
  = (Return (fold_left f (rev pre) xl),
     prologue (Stacked dt (pre ++ [xl])) (Z.of_nat (length (pre ++ [xl])))
       ++ EvRead (Z.of_nat (length pre)) :: foldr_steps pre).
Proof.
  intros Hfuel Hdt. unfold foldr, op_scope, constant, convert_to_tensor.
  cbn [callable negb shape0 leading_dim allocate unpack unstack dtype_of
       bind emit ret app fst snd dtype dynamic_size].
  replace (Z.of_nat (length (pre ++ [xl])) - 1) with (Z.of_nat (length pre))
    by (rewrite length_app; cbn; lia).
  rewrite (read_written _ (length pre) xl) by apply lookup_unpacked.
  cbn [bind ret app fst snd].
  rewrite (foldr_loop dt (pre ++ [xl]) _ _ _ f (dtype_of xl) [xl] pre xl fuel
             eq_refl Hfuel eq_refl Hdt).
  cbn [bind ret app fst snd]. rewrite ?app_nil_r. reflexivity.
Qed.

Lemma foldr_run_init (f : Value -> Value -> Value) (dt : DType)
    (xs : list Value) (init : Value) (fuel : nat) :
  (length xs <= fuel)%nat ->
  Forall (fun v => dtype_of v = dtype_of init) (scanl f init (rev xs)) ->
  foldr fuel (Lambda2 f) (Stacked dt xs) (Some init)
        parallel_iterations back_prop swap_memory name
  = (Return (fold_left f (rev xs) init),
     prologue (Stacked dt xs) (Z.of_nat (length xs)) ++ foldr_steps xs).
Proof.
  intros Hfuel Hdt. unfold foldr, op_scope, constant, convert_to_tensor.
  cbn [callable negb shape0 leading_dim allocate unpack unstack dtype_of
       bind emit ret app fst snd dtype dynamic_size convert_to_tensor].
  rewrite (foldr_loop dt xs _ _ _ f (dtype_of init) [] xs init fuel
             (eq_sym (app_nil_r xs)) Hfuel eq_refl Hdt).
  cbn [bind ret app fst snd]. rewrite ?app_nil_r. reflexivity.
Qed.

End Runs.


Section MapRuns.
Variables (parallel_iterations : Z) (back_prop swap_memory : bool).
Variable (name : option string).

Lemma map_fn_run (f : Value -> Value) (dt : DType) (xs : list Value)
    (dtype : option DType) (fuel : nat) :
  (length xs <= fuel)%nat ->
  Forall (fun x => dtype_of (f x) = map_out_dtype dtype (Stacked dt xs)) xs ->
  map_fn fuel (Lambda1 f) (Stacked dt xs) dtype
         parallel_iterations back_prop swap_memory name
  = (Return (Stacked (map_out_dtype dtype (Stacked dt xs)) (map f xs)),
     prologue (Stacked dt xs) (Z.of_nat (length xs))
       ++ EvAllocate (map_out_dtype dtype (Stacked dt xs))
                     (Z.of_nat (length xs)) false
       :: map_steps f 0 xs ++ [EvPack]).
Proof.
  intros Hfuel Hdt. unfold map_fn, op_scope, constant.
  fold (map_out_dtype dtype (Stacked dt xs)).
  set (odt := map_out_dtype dtype (Stacked dt xs)) in *.
  cbn [callable negb shape0 leading_dim allocate unpack unstack dtype_of
       bind emit ret app fst snd tensor_array_ops.dtype dynamic_size].
  rewrite Nat2Z.id.
  pose proof (map_loop dt xs parallel_iterations back_prop swap_memory
                f odt xs [] [] fuel eq_refl eq_refl Hfuel Hdt) as Hloop.
  cbn [length map app] in Hloop. change (Z.of_nat 0) with 0 in Hloop.
  rewrite Hloop.
  cbn [bind ret app fst snd pack emit slots tensor_array_ops.dtype].
  rewrite written_map_Some.
  cbn [bind ret app fst snd stack prologue dtype_of]. rewrite ?app_nil_r.
  reflexivity.
Qed.

End MapRuns.


(** ** Empty inputs and rejected arguments *)

Section EdgeCases.
Variables (parallel_iterations : Z) (back_prop swap_memory : bool).
Variable (name : option string).

Lemma foldl_empty (fuel : nat) (fn : PyObject) (dt : DType) :
  callable fn = true ->
  foldl fuel fn (Stacked dt []) None
        parallel_iterations back_prop swap_memory name
  = (Raise IndexError, prologue (Stacked dt []) 0 ++ [EvRead 0]).
Proof. intros Hfn. unfold foldl, op_scope. rewrite Hfn. reflexivity. Qed.

Lemma foldr_empty (fuel : nat) (fn : PyObject) (dt : DType) :
  callable fn = true ->
  foldr fuel fn (Stacked dt []) None
        parallel_iterations back_prop swap_memory name
  = (Raise IndexError, prologue (Stacked dt []) 0 ++ [EvRead (0 - 1)]).
Proof. intros Hfn. unfold foldr, op_scope. rewrite Hfn. reflexivity. Qed.

Lemma scan_empty (fuel : nat) (fn : PyObject) (dt : DType) :
  callable fn = true ->
  scan fuel fn (Stacked dt []) None
       parallel_iterations back_prop swap_memory name
  = (Raise IndexError, prologue (Stacked dt []) 0 ++ [EvRead 0]).
Proof. intros Hfn. unfold scan, op_scope. rewrite Hfn. reflexivity. Qed.

Lemma map_fn_empty (fuel : nat) (fn : PyObject) (dt : DType)
    (dtype : option DType) :
  callable fn = true ->
  map_fn fuel fn (Stacked dt []) dtype
         parallel_iterations back_prop swap_memory name
  = (Return (Stacked (map_out_dtype dtype (Stacked dt [])) []),
     prologue (Stacked dt []) 0
       ++ [EvAllocate (map_out_dtype dtype (Stacked dt [])) 0 false; EvPack]).
Proof.
  intros Hfn. unfold map_fn, op_scope. rewrite Hfn.
  destruct fuel; reflexivity.
Qed.

Lemma not_callable_rejected (fuel : nat) (fn : PyObject) (elems : Value)
    (initializer : option Value) (dtype : option DType) :
  callable fn = false ->
  foldl fuel fn elems initializer parallel_iterations back_prop swap_memory name
    = (Raise NotCallableError, [])
  /\ foldr fuel fn elems initializer parallel_iterations back_prop swap_memory
           name
     = (Raise NotCallableError, [])
  /\ map_fn fuel fn elems dtype parallel_iterations back_prop swap_memory name
     = (Raise NotCallableError, [])
  /\ scan fuel fn elems initializer parallel_iterations back_prop swap_memory
          name
     = (Raise NotCallableError, []).
Proof.
  intros Hfn. unfold foldl, foldr, map_fn, scan, op_scope. rewrite Hfn.
  repeat split; reflexivity.
Qed.

End EdgeCases.


(** ** Runs of [scan] *)

Section ScanRuns.
Variables (parallel_iterations : Z) (back_prop swap_memory : bool).
Variable (name : option string).

Lemma scan_run_no_init (f : Value -> Value -> Value) (dt : DType)
    (x0 : Value) (rest : list Value) (fuel : nat) :
  (length rest <= fuel)%nat ->
  Forall (fun v => dtype_of v = dtype_of x0) (scanl f x0 rest) ->
  scan fuel (Lambda2 f) (Stacked dt (x0 :: rest)) None
       parallel_iterations back_prop swap_memory name
  = (Return (Stacked (dtype_of x0) (x0 :: scanl f x0 rest)),
     prologue (Stacked dt (x0 :: rest)) (Z.of_nat (length (x0 :: rest)))
       ++ EvRead 0
       :: EvAllocate (dtype_of x0) (Z.of_nat (length (x0 :: rest))) false
       :: EvWrite 0 x0
       :: scan_steps f 1 x0 rest ++ [EvPack]).
Proof.
  intros Hfuel Hdt. unfold scan, op_scope, constant, convert_to_tensor.
  cbn [callable negb shape0 leading_dim allocate unpack unstack dtype_of
       bind emit ret app fst snd tensor_array_ops.dtype dynamic_size].
  pose proof (read_written (mkTensorArray dt false (map Some (x0 :: rest)))
                0%nat x0 eq_refl) as Hread.
  change (Z.of_nat 0) with 0 in Hread. rewrite Hread.
  cbn [bind ret app fst snd]. rewrite Nat2Z.id.
  change (replicate (length (x0 :: rest)) (@None Value))
    with (@None Value :: replicate (length rest) None).
  pose proof (write_in_range (dtype_of x0) [] (replicate (length rest) None)
                None x0 eq_refl) as Hwrite.
  cbn [length app] in Hwrite. change (Z.of_nat 0) with 0 in Hwrite.
  rewrite Hwrite. cbn [bind ret app fst snd].
  pose proof (scan_loop dt (x0 :: rest) parallel_iterations back_prop
                swap_memory f (dtype_of x0) rest [x0] [x0] x0 fuel
                eq_refl eq_refl Hfuel eq_refl Hdt) as Hloop.
  change (Z.of_nat (length [x0])) with 1 in Hloop.
  change (map Some [x0] ++ replicate (length rest) None)
    with (Some x0 :: replicate (length rest) None) in Hloop.
  rewrite Hloop.
  cbn [bind ret app fst snd pack emit slots tensor_array_ops.dtype].
  rewrite written_map_Some.
  cbn [bind ret app fst snd stack prologue dtype_of]. rewrite ?app_nil_r.
  reflexivity.
Qed.

Lemma scan_run_init (f : Value -> Value -> Value) (dt : DType)
    (xs : list Value) (init : Value) (fuel : nat) :
  (length xs <= fuel)%nat ->
  Forall (fun v => dtype_of v = dtype_of init) (scanl f init xs) ->
  scan fuel (Lambda2 f) (Stacked dt xs) (Some init)
       parallel_iterations back_prop swap_memory name
  = (Return (Stacked (dtype_of init) (scanl f init xs)),
     prologue (Stacked dt xs) (Z.of_nat (length xs))
       ++ EvAllocate (dtype_of init) (Z.of_nat (length xs)) false
       :: scan_steps f 0 init xs ++ [EvPack]).
Proof.
  intros Hfuel Hdt. unfold scan, op_scope, constant, convert_to_tensor.
  cbn [callable negb shape0 leading_dim allocate unpack unstack dtype_of
       bind emit ret app fst snd tensor_array_ops.dtype dynamic_size].
  rewrite Nat2Z.id.
  pose proof (scan_loop dt xs parallel_iterations back_prop swap_memory
                f (dtype_of init) xs [] [] init fuel
                eq_refl eq_refl Hfuel eq_refl Hdt) as Hloop.
  cbn [length map app] in Hloop. change (Z.of_nat 0) with 0 in Hloop.
  rewrite Hloop.
  cbn [bind ret app fst snd pack emit slots tensor_array_ops.dtype].
  rewrite written_map_Some.
  cbn [bind ret app fst snd stack prologue dtype_of]. rewrite ?app_nil_r.
  reflexivity.
Qed.

End ScanRuns.


(** ** What a returning loop has computed *)

Lemma types_index_value_buffer_inv (i j : Z) (a b : Value)
    (ta tb : TensorArray) :
  element_types (i, a, ta) = element_types (j, b, tb) ->
  dtype_of a = dtype_of b.
Proof.
  change (([DT_INT32] ++ [dtype_of a]) ++ [dtype ta]
          = ([DT_INT32] ++ [dtype_of b]) ++ [dtype tb]
          -> dtype_of a = dtype_of b).
  cbn [app]. congruence.
Qed.

Section Returns.
Variables (dt : DType) (xs : list Value).
Variables (parallel_iterations : Z) (back_prop swap_memory : bool).

(** Whenever the loop of [foldl] returns, it returns the left-to-right fold
    of the remaining slots, with the index at [n]. *)
Lemma foldl_loop_returns (f : Value -> Value -> Value) (rest : list Value) :
  forall (pre : list Value) (a : Value) (fuel : nat) (s : Z * Value),
    xs = pre ++ rest ->
    outcome (While fuel (fun '(i, a) => i <? Z.of_nat (length xs))
               (foldl_compute (Lambda2 f)
                  (mkTensorArray dt false (map Some xs)))
               (Z.of_nat (length pre), a)
               parallel_iterations back_prop swap_memory)
    = Return s ->
    s = (Z.of_nat (length xs), fold_left f rest a).
Proof.
  induction rest as [| x rest IH]; intros pre a fuel s Hxs H.
  - rewrite app_nil_r in Hxs. subst pre.
    rewrite While_exit in H by apply Z.ltb_irrefl.
    cbn in H. injection H as <-. reflexivity.
  - assert ((Z.of_nat (length pre) <? Z.of_nat (length xs)) = true) as Hcond
      by (apply Z.ltb_lt; rewrite Hxs, length_app; cbn; lia).
    destruct fuel as [| fuel].
    { rewrite While_out_of_fuel in H by exact Hcond. discriminate. }
    apply While_step_returns in H as (next & Hbody & _ & Hloop);
      [| exact Hcond].
    rewrite (foldl_compute_step dt xs f (length pre) a x) in Hbody
      by (rewrite Hxs; apply list_lookup_middle; reflexivity).
    cbn in Hbody. injection Hbody as <-.
    replace (Z.of_nat (length pre) + 1) with (Z.of_nat (length (pre ++ [x])))
      in Hloop by (rewrite length_app; cbn; lia).
    apply IH in Hloop; [exact Hloop |].
    rewrite <- app_assoc. exact Hxs.
Qed.

(** Whenever the loop of [foldr] returns, it returns the right-to-left fold
    of the slots below its index, with the index at 0. *)
Lemma foldr_loop_returns (f : Value -> Value -> Value) :
  forall (pre post : list Value) (a : Value) (fuel : nat) (s : Z * Value),
    xs = pre ++ post ->
    outcome (While fuel (fun '(i, a) => i >? 0)
               (foldr_compute (Lambda2 f)
                  (mkTensorArray dt false (map Some xs)))
               (Z.of_nat (length pre), a)
               parallel_iterations back_prop swap_memory)
    = Return s ->
    s = (0, fold_left f (rev pre) a).
Proof.
  induction pre as [| x pre IH] using rev_ind; intros post a fuel s Hxs H.
  - rewrite While_exit in H by reflexivity.
    cbn in H. injection H as <-. reflexivity.
  - replace (Z.of_nat (length (pre ++ [x]))) with (Z.of_nat (S (length pre)))
      in H by (rewrite length_app; cbn; lia).
    assert ((Z.of_nat (S (length pre)) >? 0) = true) as Hcond
      by (apply Z.gtb_lt; lia).
    destruct fuel as [| fuel].
    { rewrite While_out_of_fuel in H by exact Hcond. discriminate. }
    apply While_step_returns in H as (next & Hbody & _ & Hloop);
      [| exact Hcond].
    rewrite (foldr_compute_step dt xs f (length pre) a x) in Hbody
      by (rewrite Hxs, <- app_assoc; apply list_lookup_middle; reflexivity).
    cbn in Hbody. injection Hbody as <-.
    apply (IH ([x] ++ post)) in Hloop.
    + rewrite rev_app_distr. exact Hloop.
    + rewrite Hxs, <- app_assoc. reflexivity.
Qed.

(** Whenever the loop of [map_fn] returns, it has filled the remaining
    output slots with [f] of the remaining input slots. *)
Lemma map_loop_returns (f : Value -> Value) (odt : DType) (rest : list Value) :
  forall (pre outl : list Value) (fuel : nat) (s : Z * TensorArray),
    xs = pre ++ rest ->
    length outl = length pre ->
    outcome (While fuel (fun '(i, a) => i <? Z.of_nat (length xs))
               (map_compute (Lambda1 f) (mkTensorArray dt false (map Some xs)))
               (Z.of_nat (length pre),
                mkTensorArray odt false
                  (map Some outl ++ replicate (length rest) None))
               parallel_iterations back_prop swap_memory)
    = Return s ->
    s = (Z.of_nat (length xs),
         mkTensorArray odt false (map Some (outl ++ map f rest))).
Proof.
  induction rest as [| x rest IH]; intros pre outl fuel s Hxs Hout H.
  - rewrite app_nil_r in Hxs. subst pre.
    rewrite While_exit in H by apply Z.ltb_irrefl.
    cbn in H. rewrite !app_nil_r in *. congruence.
  - assert ((Z.of_nat (length pre) <? Z.of_nat (length xs)) = true) as Hcond
      by (apply Z.ltb_lt; rewrite Hxs, length_app; cbn; lia).
    destruct fuel as [| fuel].
    { rewrite While_out_of_fuel in H by exact Hcond. discriminate. }
    apply While_step_returns in H as (next & Hbody & _ & Hloop);
      [| exact Hcond].
    unfold map_compute in Hbody.
    rewrite (read_unpacked dt xs (length pre) x) in Hbody
      by (rewrite Hxs; apply list_lookup_middle; reflexivity).
    rewrite outcome_bind_Return in Hbody.
    apply bind_outcome_Return in Hbody as (y & Hcall & Hbody).
    cbn in Hcall. injection Hcall as <-.
    apply bind_outcome_Return in Hbody as (ta' & Hwrite & Hret).
    assert (length pre = length (map Some outl)) as Hlen
      by (rewrite length_map; congruence).
    cbn [replicate length] in Hwrite. rewrite Hlen in Hwrite.
    apply write_returns in Hwrite. subst ta'.
    cbn in Hret. injection Hret as <-.
    replace (Z.of_nat (length pre) + 1) with (Z.of_nat (length (pre ++ [x])))
      in Hloop by (rewrite length_app; cbn; lia).
    replace (map Some outl ++ Some (f x) :: replicate (length rest) None)
      with (map Some (outl ++ [f x]) ++ replicate (length rest) None)
      in Hloop by (rewrite map_app, <- app_assoc; reflexivity).
    apply IH in Hloop.
    + rewrite <- app_assoc in Hloop. exact Hloop.
    + rewrite <- app_assoc. exact Hxs.
    + rewrite !length_app. cbn. lia.
Qed.

(** Whenever the loop of [scan] returns, the loop of [foldl] run from the
    same index and accumulator with the same fuel returns the accumulator
    that [scan] wrote last. *)
Lemma scan_simulates_foldl (fn : PyObject) (odt : DType) (rest : list Value) :
  forall (pre outl : list Value) (a : Value) (fuel : nat)
         (s : Z * Value * TensorArray),
    xs = pre ++ rest ->
    length outl = length pre ->
    outcome (While fuel (fun '(i, a, ta) => i <? Z.of_nat (length xs))
               (scan_compute fn (mkTensorArray dt false (map Some xs)))
               (Z.of_nat (length pre), a,
                mkTensorArray odt false
                  (map Some outl ++ replicate (length rest) None))
               parallel_iterations back_prop swap_memory)
    = Return s ->
    exists (r : Value) (vs : list Value),
      s = (Z.of_nat (length xs), r,
           mkTensorArray odt false (map Some (outl ++ vs)))
      /\ length vs = length rest
      /\ last (a :: vs) = Some r
      /\ outcome (While fuel (fun '(i, a) => i <? Z.of_nat (length xs))
                    (foldl_compute fn (mkTensorArray dt false (map Some xs)))
                    (Z.of_nat (length pre), a)
                    parallel_iterations back_prop swap_memory)
         = Return (Z.of_nat (length xs), r).
Proof.
  induction rest as [| x rest IH]; intros pre outl a fuel s Hxs Hout H.
  - rewrite app_nil_r in Hxs. subst pre.
    rewrite While_exit in H by apply Z.ltb_irrefl.
    cbn in H. injection H as <-.
    exists a, []. rewrite While_exit by apply Z.ltb_irrefl.
    rewrite !app_nil_r. repeat split.
  - assert ((Z.of_nat (length pre) <? Z.of_nat (length xs)) = true) as Hcond
      by (apply Z.ltb_lt; rewrite Hxs, length_app; cbn; lia).
    destruct fuel as [| fuel].
    { rewrite While_out_of_fuel in H by exact Hcond. discriminate. }
    assert (read (mkTensorArray dt false (map Some xs)) (Z.of_nat (length pre))
            = (Return x, [EvRead (Z.of_nat (length pre))])) as Hread
      by (apply read_unpacked; rewrite Hxs; apply list_lookup_middle;
          reflexivity).
    apply While_step_returns in H as (next & Hbody & Hty & Hloop);
      [| exact Hcond].
    unfold scan_compute in Hbody. rewrite Hread, outcome_bind_Return in Hbody.
    apply bind_outcome_Return in Hbody as (a' & Hcall & Hbody).
    apply bind_outcome_Return in Hbody as (ta' & Hwrite & Hret).
    assert (length pre = length (map Some outl)) as Hlen
      by (rewrite length_map; congruence).
    cbn [replicate length] in Hwrite. rewrite Hlen in Hwrite.
    apply write_returns in Hwrite. subst ta'.
    cbn in Hret. injection Hret as <-.
    apply types_index_value_buffer_inv in Hty.
    replace (Z.of_nat (length pre) + 1) with (Z.of_nat (length (pre ++ [x])))
      in Hloop by (rewrite length_app; cbn; lia).
    replace (map Some outl ++ Some a' :: replicate (length rest) None)
      with (map Some (outl ++ [a']) ++ replicate (length rest) None)
      in Hloop by (rewrite map_app, <- app_assoc; reflexivity).
    apply IH in Hloop as (r & vs & Hs & Hvs & Hlast & Hfold).
    + exists r, (a' :: vs). rewrite <- app_assoc in Hs.
      split; [exact Hs |]. split; [cbn; congruence |].
      split; [exact Hlast |].
      rewrite While_step by exact Hcond.
      rewrite outcome_bind. unfold foldl_compute at 1.
      rewrite Hread, outcome_bind_Return, outcome_bind, Hcall.
      cbn [outcome ret fst].
      rewrite bool_decide_eq_true_2
        by (apply types_index_value; exact Hty).
      replace (Z.of_nat (length pre) + 1)
        with (Z.of_nat (length (pre ++ [x])))
        by (rewrite length_app; cbn; lia).
      exact Hfold.
    + rewrite <- app_assoc. exact Hxs.
    + rewrite !length_app. cbn. lia.
Qed.

End Returns.

(** ** Outcomes in terms of the loops *)

Section Outcomes.
Variables (parallel_iterations : Z) (back_prop swap_memory : bool).
Variable (name : option string).
Variables (fuel : nat) (fn : PyObject) (dt : DType).
Hypothesis Hfn : callable fn = true.

Lemma scan_outcome_init (xs : list Value) (init : Value) :
  outcome (scan fuel fn (Stacked dt xs) (Some init)
                parallel_iterations back_prop swap_memory name)
  = outcome
      (let* (_, _, r_a) :=
         While fuel (fun '(i, a, ta) => i <? Z.of_nat (length xs))
               (scan_compute fn (mkTensorArray dt false (map Some xs)))
               (0, init,
                mkTensorArray (dtype_of init) false
                  (replicate (length xs) None))
               parallel_iterations back_prop swap_memory in
       pack r_a).
Proof.
  unfold scan, op_scope, constant, convert_to_tensor. rewrite Hfn. cbn [negb].
  rewrite shape0_Stacked, outcome_bind_Return.
  rewrite allocate_eq, outcome_bind_Return.
  rewrite unpack_Stacked, outcome_bind_Return.
  rewrite outcome_bind_ret. cbv beta iota.
  rewrite allocate_eq, outcome_bind_Return.
  rewrite outcome_bind_ret, Nat2Z.id.
  reflexivity.
Qed.

Lemma scan_outcome_no_init (x0 : Value) (rest : list Value) :
  outcome (scan fuel fn (Stacked dt (x0 :: rest)) None
                parallel_iterations back_prop swap_memory name)
  = outcome
      (let* (_, _, r_a) :=
         While fuel (fun '(i, a, ta) => i <? Z.of_nat (length (x0 :: rest)))
               (scan_compute fn
                  (mkTensorArray dt false (map Some (x0 :: rest))))
               (1, x0,
                mkTensorArray (dtype_of x0) false
                  (Some x0 :: replicate (length rest) None))
               parallel_iterations back_prop swap_memory in
       pack r_a).
Proof.
  unfold scan, op_scope, constant, convert_to_tensor. rewrite Hfn. cbn [negb].
  rewrite shape0_Stacked, outcome_bind_Return.
  rewrite allocate_eq, outcome_bind_Return.
  rewrite unpack_Stacked, outcome_bind_Return.
  cbn [dtype dynamic_size dtype_of].
  pose proof (read_unpacked dt (x0 :: rest) 0%nat x0 eq_refl) as Hread.
  change (Z.of_nat 0) with 0 in Hread. rewrite Hread.
  rewrite bind_Return. cbn [ret fst snd app].
  rewrite outcome_bind_Return. cbv beta iota.
  rewrite allocate_eq, outcome_bind_Return, Nat2Z.id.
  change (replicate (length (x0 :: rest)) (@None Value))
    with (@None Value :: replicate (length rest) None).
  pose proof (write_in_range (dtype_of x0) [] (replicate (length rest) None)
                None x0 eq_refl) as Hwrite.
  cbn [length app] in Hwrite. change (Z.of_nat 0) with 0 in Hwrite.
  rewrite Hwrite, outcome_bind_Return.
  reflexivity.
Qed.

Lemma foldl_outcome_init (xs : list Value) (init : Value) :
  outcome (foldl fuel fn (Stacked dt xs) (Some init)
                 parallel_iterations back_prop swap_memory name)
  = outcome
      (let* (_, r_a) :=
         While fuel (fun '(i, a) => i <? Z.of_nat (length xs))
               (foldl_compute fn (mkTensorArray dt false (map Some xs)))
               (0, init) parallel_iterations back_prop swap_memory in
       ret r_a).
Proof.
  unfold foldl, op_scope, constant, convert_to_tensor. rewrite Hfn. cbn [negb].
  rewrite shape0_Stacked, outcome_bind_Return.
  rewrite allocate_eq, outcome_bind_Return.
  rewrite unpack_Stacked, outcome_bind_Return.
  rewrite outcome_bind_ret.
  reflexivity.
Qed.

Lemma foldl_outcome_no_init (x0 : Value) (rest : list Value) :
  outcome (foldl fuel fn (Stacked dt (x0 :: rest)) None
                 parallel_iterations back_prop swap_memory name)
  = outcome
      (let* (_, r_a) :=
         While fuel (fun '(i, a) => i <? Z.of_nat (length (x0 :: rest)))
               (foldl_compute fn
                  (mkTensorArray dt false (map Some (x0 :: rest))))
               (1, x0) parallel_iterations back_prop swap_memory in
       ret r_a).
Proof.
  unfold foldl, op_scope, constant, convert_to_tensor. rewrite Hfn. cbn [negb].
  rewrite shape0_Stacked, outcome_bind_Return.
  rewrite allocate_eq, outcome_bind_Return.
  rewrite unpack_Stacked, outcome_bind_Return.
  cbn [dtype dynamic_size dtype_of].
  pose proof (read_unpacked dt (x0 :: rest) 0%nat x0 eq_refl) as Hread.
  change (Z.of_nat 0) with 0 in Hread. rewrite Hread.
  rewrite bind_Return. cbn [ret fst snd app].
  rewrite outcome_bind_Return.
  reflexivity.
Qed.


Lemma foldr_outcome_init (xs : list Value) (init : Value) :
  outcome (foldr fuel fn (Stacked dt xs) (Some init)
                 parallel_iterations back_prop swap_memory name)
  = outcome
      (let* (_, r_a) :=
         While fuel (fun '(i, a) => i >? 0)
               (foldr_compute fn (mkTensorArray dt false (map Some xs)))
               (Z.of_nat (length xs), init)
               parallel_iterations back_prop swap_memory in
       ret r_a).
Proof.
  unfold foldr, op_scope, constant, convert_to_tensor. rewrite Hfn. cbn [negb].
  rewrite shape0_Stacked, outcome_bind_Return.
  rewrite allocate_eq, outcome_bind_Return.
  rewrite unpack_Stacked, outcome_bind_Return.
  rewrite outcome_bind_ret.
  reflexivity.
Qed.

Lemma foldr_outcome_no_init (pre : list Value) (xl : Value) :
  outcome (foldr fuel fn (Stacked dt (pre ++ [xl])) None
                 parallel_iterations back_prop swap_memory name)
  = outcome
      (let* (_, r_a) :=
         While fuel (fun '(i, a) => i >? 0)
               (foldr_compute fn
                  (mkTensorArray dt false (map Some (pre ++ [xl]))))
               (Z.of_nat (length pre), xl)
               parallel_iterations back_prop swap_memory in
       ret r_a).
Proof.
  unfold foldr, op_scope, constant, convert_to_tensor. rewrite Hfn. cbn [negb].
  rewrite shape0_Stacked, outcome_bind_Return.
  rewrite allocate_eq, outcome_bind_Return.
  rewrite unpack_Stacked, outcome_bind_Return.
  cbn [dtype dynamic_size dtype_of].
  replace (Z.of_nat (length (pre ++ [xl])) - 1) with (Z.of_nat (length pre))
    by (rewrite length_app; cbn; lia).
  rewrite (read_unpacked dt (pre ++ [xl]) (length pre) xl)
    by (apply list_lookup_middle; reflexivity).
  rewrite bind_Return. cbn [ret fst snd app].
  rewrite outcome_bind_Return.
  reflexivity.
Qed.

Lemma map_fn_outcome (xs : list Value) (dtype : option DType) :
  outcome (map_fn fuel fn (Stacked dt xs) dtype
                  parallel_iterations back_prop swap_memory name)
  = outcome
      (let* (_, r_a) :=
         While fuel (fun '(i, a) => i <? Z.of_nat (length xs))
               (map_compute fn (mkTensorArray dt false (map Some xs)))
               (0, mkTensorArray (map_out_dtype dtype (Stacked dt xs)) false
                     (replicate (length xs) None))
               parallel_iterations back_prop swap_memory in
       pack r_a).
Proof.
  unfold map_fn, op_scope, constant. rewrite Hfn. cbn [negb].
  rewrite shape0_Stacked, outcome_bind_Return.
  rewrite allocate_eq, outcome_bind_Return.
  rewrite unpack_Stacked, outcome_bind_Return.
  rewrite allocate_eq, outcome_bind_Return, Nat2Z.id.
  reflexivity.
Qed.

End Outcomes.

(** ** Every result a combinator returns *)

Section Results.
Variables (parallel_iterations : Z) (back_prop swap_memory : bool).
Variable (name : option string).
Variables (fuel : nat) (dt : DType).

Lemma foldl_returns (f : Value -> Value -> Value) (x0 : Value)
    (rest : list Value) (initializer : option Value) (r : Value) :
  outcome (foldl fuel (Lambda2 f) (Stacked dt (x0 :: rest)) initializer
                 parallel_iterations back_prop swap_memory name)
  = Return r ->
  r = match initializer with
      | None => fold_left f rest x0
      | Some init => fold_left f (x0 :: rest) init
      end.
Proof.
  intros H. destruct initializer as [init |].
  - rewrite foldl_outcome_init in H by reflexivity.
    apply bind_outcome_Return in H as (s & Hloop & Hret).
    apply (foldl_loop_returns dt (x0 :: rest) parallel_iterations back_prop
             swap_memory f (x0 :: rest) [] init fuel s eq_refl) in Hloop.
    subst s. cbn in Hret. injection Hret as <-. reflexivity.
  - rewrite foldl_outcome_no_init in H by reflexivity.
    apply bind_outcome_Return in H as (s & Hloop & Hret).
    apply (foldl_loop_returns dt (x0 :: rest) parallel_iterations back_prop
             swap_memory f rest [x0] x0 fuel s eq_refl) in Hloop.
    subst s. cbn in Hret. injection Hret as <-. reflexivity.
Qed.

Lemma foldr_returns (f : Value -> Value -> Value) (pre : list Value)
    (xl : Value) (initializer : option Value) (r : Value) :
  outcome (foldr fuel (Lambda2 f) (Stacked dt (pre ++ [xl])) initializer
                 parallel_iterations back_prop swap_memory name)
  = Return r ->
  r = match initializer with
      | None => fold_left f (rev pre) xl
      | Some init => fold_left f (rev (pre ++ [xl])) init
      end.
Proof.
  intros H. destruct initializer as [init |].
  - rewrite foldr_outcome_init in H by reflexivity.
    apply bind_outcome_Return in H as (s & Hloop & Hret).
    apply (foldr_loop_returns dt (pre ++ [xl]) parallel_iterations back_prop
             swap_memory f (pre ++ [xl]) [] init fuel s
             (eq_sym (app_nil_r _))) in Hloop.
    subst s. cbn in Hret. injection Hret as <-. reflexivity.
  - rewrite foldr_outcome_no_init in H by reflexivity.
    apply bind_outcome_Return in H as (s & Hloop & Hret).
    apply (foldr_loop_returns dt (pre ++ [xl]) parallel_iterations back_prop
             swap_memory f pre [xl] xl fuel s eq_refl) in Hloop.
    subst s. cbn in Hret. injection Hret as <-. reflexivity.
Qed.

(** Every output [map_fn] returns is the input mapped slot by slot. *)
Lemma map_fn_returns (f : Value -> Value) (xs : list Value)
    (dtype : option DType) (out : Value) :
  outcome (map_fn fuel (Lambda1 f) (Stacked dt xs) dtype
                  parallel_iterations back_prop swap_memory name)
  = Return out ->
  out = Stacked (map_out_dtype dtype (Stacked dt xs)) (map f xs).
Proof.
  intros H. rewrite map_fn_outcome in H by reflexivity.
  apply bind_outcome_Return in H as (s & Hloop & Hpack).
  apply (map_loop_returns dt xs parallel_iterations back_prop swap_memory
           f (map_out_dtype dtype (Stacked dt xs)) xs [] []
           fuel s eq_refl eq_refl) in Hloop.
  subst s. unfold pack in Hpack.
  cbn [slots tensor_array_ops.dtype app] in Hpack.
  rewrite written_map_Some in Hpack. cbn in Hpack.
  injection Hpack as <-. reflexivity.
Qed.

End Results.

(** ** Properties of the combinators *)

(** C1.  On a non-empty input [x0 :: rest], [foldl] without an initializer
    returns the strict left-to-right fold [f (... (f (f x0 x1) x2) ...) xn-1]:
    slot 0 is read into the accumulator, the loop starts at index 1 (at index
    0 from the initializer when one is given), every iteration reads slot [i],
    sets [a = f a x] and moves to [i + 1], and the loop ends with the index at
    [n].  The run succeeds when the fuel covers the iterations and the
    accumulators keep their element type, and every result [foldl] returns is
    that fold.  The order of application is observable: on [1; 2; 3] with
    subtraction the result is [(1 - 2) - 3], not [1 - (2 - 3)]. *)
Theorem foldl_left_to_right
    (f : Value -> Value -> Value) (dt : DType) (x0 : Value) (rest : list Value)
    (fuel : nat) (parallel_iterations : Z) (back_prop swap_memory : bool)
    (name : option string) :
  (length (x0 :: rest) <= fuel)%nat ->
  Forall (fun v => dtype_of v = dtype_of x0) (scanl f x0 rest) ->
  foldl fuel (Lambda2 f) (Stacked dt (x0 :: rest)) None
        parallel_iterations back_prop swap_memory name
  = (Return (fold_left f rest x0),
     prologue (Stacked dt (x0 :: rest)) (Z.of_nat (length (x0 :: rest)))
       ++ EvRead 0 :: fold_steps 1 rest)
  /\ While fuel (fun '(i, a) => i <? Z.of_nat (length (x0 :: rest)))
           (foldl_compute (Lambda2 f)
              (mkTensorArray dt false (map Some (x0 :: rest))))
           (1, x0) parallel_iterations back_prop swap_memory
     = (Return (Z.of_nat (length (x0 :: rest)), fold_left f rest x0),
        fold_steps 1 rest)
  /\ (forall init : Value,
        Forall (fun v => dtype_of v = dtype_of init)
               (scanl f init (x0 :: rest)) ->
        foldl fuel (Lambda2 f) (Stacked dt (x0 :: rest)) (Some init)
              parallel_iterations back_prop swap_memory name
        = (Return (fold_left f (x0 :: rest) init),
           prologue (Stacked dt (x0 :: rest)) (Z.of_nat (length (x0 :: rest)))
             ++ fold_steps 0 (x0 :: rest))
        /\ While fuel (fun '(i, a) => i <? Z.of_nat (length (x0 :: rest)))
                 (foldl_compute (Lambda2 f)
                    (mkTensorArray dt false (map Some (x0 :: rest))))
                 (0, init) parallel_iterations back_prop swap_memory
           = (Return (Z.of_nat (length (x0 :: rest)),
                      fold_left f (x0 :: rest) init),
              fold_steps 0 (x0 :: rest)))
  /\ (forall (i : nat) (a x : Value),
        (x0 :: rest) !! i = Some x ->
        foldl_compute (Lambda2 f)
          (mkTensorArray dt false (map Some (x0 :: rest))) (Z.of_nat i, a)
        = (Return (Z.of_nat i + 1, f a x), [EvRead (Z.of_nat i); EvApply]))
  /\ (forall (fuel' : nat) (initializer : option Value) (r : Value),
        outcome (foldl fuel' (Lambda2 f) (Stacked dt (x0 :: rest)) initializer
                       parallel_iterations back_prop swap_memory name)
        = Return r ->
        r = match initializer with
            | None => fold_left f rest x0
            | Some init => fold_left f (x0 :: rest) init
            end)
  /\ outcome (foldl 2 (Lambda2 (lift2 Z.sub)) (vector [1; 2; 3]) None
                    parallel_iterations back_prop swap_memory name)
     = Return (int32 ((1 - 2) - 3))
  /\ int32 ((1 - 2) - 3) <> int32 (1 - (2 - 3)).
Proof.
  intros Hfuel Hdt.
  assert (length rest <= fuel)%nat as Hrest by (cbn in Hfuel; lia).
  split; [apply foldl_run_no_init; assumption |].
  split.
  { exact (foldl_loop dt (x0 :: rest) parallel_iterations back_prop swap_memory
             f (dtype_of x0) rest [x0] x0 fuel eq_refl Hrest eq_refl Hdt). }
  split.
  { intros init Hinit. split; [apply foldl_run_init; assumption |].
    exact (foldl_loop dt (x0 :: rest) parallel_iterations back_prop swap_memory
             f (dtype_of init) (x0 :: rest) [] init fuel eq_refl Hfuel
             eq_refl Hinit). }
  split; [intros i a x Hx; apply foldl_compute_step; exact Hx |].
  split; [intros fuel' initializer r Hr; eapply foldl_returns; exact Hr |].
  split; [reflexivity | discriminate].
Qed.

Lemma foldl_left_to_right_witness :
  ((length [int32 1; int32 2; int32 3; int32 4; int32 5; int32 6] <= 6)%nat
   /\ Forall (fun v => dtype_of v = dtype_of (int32 1))
             (scanl (lift2 Z.add) (int32 1) (map int32 [2; 3; 4; 5; 6])))
  /\ foldl 6 (Lambda2 (lift2 Z.add)) (vector [1; 2; 3; 4; 5; 6]) None
           default_parallel_iterations default_back_prop default_swap_memory
           None
     = (Return (int32 21),
        prologue (vector [1; 2; 3; 4; 5; 6]) 6
          ++ EvRead 0 :: fold_steps 1 (map int32 [2; 3; 4; 5; 6])).
Proof.
  assert ((length [int32 1; int32 2; int32 3; int32 4; int32 5; int32 6]
           <= 6)%nat
          /\ Forall (fun v => dtype_of v = dtype_of (int32 1))
                    (scanl (lift2 Z.add) (int32 1)
                       (map int32 [2; 3; 4; 5; 6])))
    as H by (split; [cbn; lia | repeat constructor]).
  split; [exact H |].
  destruct H as [Hfuel Hdt].
  exact (proj1 (foldl_left_to_right (lift2 Z.add) DT_INT32 (int32 1)
                  (map int32 [2; 3; 4; 5; 6]) 6
                  default_parallel_iterations default_back_prop
                  default_swap_memory None Hfuel Hdt)).
Defined.

(** C2.  On a non-empty input [pre ++ [xl]], [foldr] applies [f] strictly
    right to left: without an initializer slot [n-1] is read into the
    accumulator and the index starts at [n-1] (at [n] from the initializer
    when one is given), every iteration first decrements the index and then
    sets [a = f a x] for the slot read there, and the loop ends with the
    index at 0.  The run succeeds when the fuel covers the iterations and the
    accumulators keep their element type, and every result [foldr] returns is
    that fold.  On [1; 2; 3] with subtraction [foldl] and [foldr] return
    different values. *)
Theorem foldr_right_to_left
    (f : Value -> Value -> Value) (dt : DType) (pre : list Value) (xl : Value)
    (fuel : nat) (parallel_iterations : Z) (back_prop swap_memory : bool)
    (name : option string) :
  (length (pre ++ [xl]) <= fuel)%nat ->
  Forall (fun v => dtype_of v = dtype_of xl) (scanl f xl (rev pre)) ->
  foldr fuel (Lambda2 f) (Stacked dt (pre ++ [xl])) None
        parallel_iterations back_prop swap_memory name
  = (Return (fold_right (fun x acc => f acc x) xl pre),
     prologue (Stacked dt (pre ++ [xl])) (Z.of_nat (length (pre ++ [xl])))
       ++ EvRead (Z.of_nat (length (pre ++ [xl])) - 1) :: foldr_steps pre)
  /\ While fuel (fun '(i, a) => i >? 0)
           (foldr_compute (Lambda2 f)
              (mkTensorArray dt false (map Some (pre ++ [xl]))))
           (Z.of_nat (length (pre ++ [xl])) - 1, xl)
           parallel_iterations back_prop swap_memory
     = (Return (0, fold_right (fun x acc => f acc x) xl pre), foldr_steps pre)
  /\ (forall init : Value,
        Forall (fun v => dtype_of v = dtype_of init)
               (scanl f init (rev (pre ++ [xl]))) ->
        foldr fuel (Lambda2 f) (Stacked dt (pre ++ [xl])) (Some init)
              parallel_iterations back_prop swap_memory name
        = (Return (fold_right (fun x acc => f acc x) init (pre ++ [xl])),
           prologue (Stacked dt (pre ++ [xl])) (Z.of_nat (length (pre ++ [xl])))
             ++ foldr_steps (pre ++ [xl]))
        /\ While fuel (fun '(i, a) => i >? 0)
                 (foldr_compute (Lambda2 f)
                    (mkTensorArray dt false (map Some (pre ++ [xl]))))
                 (Z.of_nat (length (pre ++ [xl])), init)
                 parallel_iterations back_prop swap_memory
           = (Return (0, fold_right (fun x acc => f acc x) init (pre ++ [xl])),
              foldr_steps (pre ++ [xl])))
  /\ (forall (i : nat) (a x : Value),
        (pre ++ [xl]) !! i = Some x ->
        foldr_compute (Lambda2 f)
          (mkTensorArray dt false (map Some (pre ++ [xl]))) (Z.of_nat (S i), a)
        = (Return (Z.of_nat i, f a x), [EvRead (Z.of_nat i); EvApply]))
  /\ (forall (fuel' : nat) (initializer : option Value) (r : Value),
        outcome (foldr fuel' (Lambda2 f) (Stacked dt (pre ++ [xl])) initializer
                       parallel_iterations back_prop swap_memory name)
        = Return r ->
        r = match initializer with
            | None => fold_right (fun x acc => f acc x) xl pre
            | Some init => fold_right (fun x acc => f acc x) init (pre ++ [xl])
            end)
  /\ outcome (foldr 2 (Lambda2 (lift2 Z.sub)) (vector [1; 2; 3]) None
                    parallel_iterations back_prop swap_memory name)
     = Return (int32 ((3 - 2) - 1))
  /\ outcome (foldl 2 (Lambda2 (lift2 Z.sub)) (vector [1; 2; 3]) None
                    parallel_iterations back_prop swap_memory name)
     = Return (int32 ((1 - 2) - 3))
  /\ int32 ((3 - 2) - 1) <> int32 ((1 - 2) - 3).
Proof.
  intros Hfuel Hdt.
  assert (length pre <= fuel)%nat as Hpre
    by (rewrite length_app in Hfuel; cbn in Hfuel; lia).
  assert (Z.of_nat (length (pre ++ [xl])) - 1 = Z.of_nat (length pre)) as Hn
    by (rewrite length_app; cbn; lia).
  rewrite Hn, <- !fold_left_rev.
  split; [apply foldr_run_no_init; assumption |].
  split.
  { exact (foldr_loop dt (pre ++ [xl]) parallel_iterations back_prop
             swap_memory f (dtype_of xl) [xl] pre xl fuel eq_refl Hpre
             eq_refl Hdt). }
  split.
  { intros init Hinit. rewrite <- fold_left_rev.
    split; [apply foldr_run_init; assumption |].
    exact (foldr_loop dt (pre ++ [xl]) parallel_iterations back_prop
             swap_memory f (dtype_of init) [] (pre ++ [xl]) init fuel
             (eq_sym (app_nil_r _)) Hfuel eq_refl Hinit). }
  split; [intros i a x Hx; apply foldr_compute_step; exact Hx |].
  split.
  { intros fuel' initializer r Hr. apply foldr_returns in Hr.
    destruct initializer; rewrite <- ?fold_left_rev; exact Hr. }
  split; [reflexivity |]. split; [reflexivity | discriminate].
Qed.

Lemma foldr_right_to_left_witness :
  ((length (map int32 [1; 2; 3; 4; 5]%Z ++ [int32 6]) <= 6)%nat
   /\ Forall (fun v => dtype_of v = dtype_of (int32 6))
             (scanl (lift2 Z.add) (int32 6)
                (rev (map int32 [1; 2; 3; 4; 5]))))
  /\ foldr 6 (Lambda2 (lift2 Z.add)) (vector [1; 2; 3; 4; 5; 6]) None
           default_parallel_iterations default_back_prop default_swap_memory
           None
     = (Return (int32 21),
        prologue (vector [1; 2; 3; 4; 5; 6]) 6
          ++ EvRead 5 :: foldr_steps (map int32 [1; 2; 3; 4; 5])).
Proof.
  assert ((length (map int32 [1; 2; 3; 4; 5]%Z ++ [int32 6]) <= 6)%nat
          /\ Forall (fun v => dtype_of v = dtype_of (int32 6))
                    (scanl (lift2 Z.add) (int32 6)
                       (rev (map int32 [1; 2; 3; 4; 5]))))
    as H by (split; [cbn; lia | repeat constructor]).
  split; [exact H |].
  destruct H as [Hfuel Hdt].
  exact (proj1 (foldr_right_to_left (lift2 Z.add) DT_INT32
                  (map int32 [1; 2; 3; 4; 5]) (int32 6) 6
                  default_parallel_iterations default_back_prop
                  default_swap_memory None Hfuel Hdt)).
Defined.

(** C3, as the code has it.  Whenever [scan] returns an output, [foldl] on
    the same [fn], input, initializer and fuel returns too, the output has
    the leading-dimension size of the input, and on a non-empty input the
    last slice of the output is the result of [foldl].  (On an empty input
    with an initializer the output is empty and has no last slice.) *)
Theorem scan_last_is_foldl
    (fuel : nat) (fn : PyObject) (elems : Value) (initializer : option Value)
    (parallel_iterations : Z) (back_prop swap_memory : bool)
    (name : option string) (out : Value) :
  outcome (scan fuel fn elems initializer
                parallel_iterations back_prop swap_memory name)
  = Return out ->
  exists r : Value,
    outcome (foldl fuel fn elems initializer
                   parallel_iterations back_prop swap_memory name)
    = Return r
    /\ leading_dim out = leading_dim elems
    /\ (leading_dim elems <> Some 0 -> last_slice out = Some r)
    /\ (leading_dim elems = Some 0 -> last_slice out = None).
Proof.
  intros H.
  destruct (callable fn) eqn:Hfn.
  2:{ pose proof (not_callable_rejected parallel_iterations back_prop
                    swap_memory name fuel fn elems initializer None Hfn)
        as (_ & _ & _ & Hscan).
      rewrite Hscan in H. discriminate. }
  destruct elems as [dt x | dt xs].
  { unfold scan, op_scope in H. rewrite Hfn in H. discriminate. }
  destruct initializer as [init |].
  - rewrite scan_outcome_init in H by exact Hfn.
    apply bind_outcome_Return in H as (s & Hloop & Hpack).
    apply (scan_simulates_foldl dt xs parallel_iterations back_prop
             swap_memory fn (dtype_of init) xs [] [] init fuel s
             eq_refl eq_refl) in Hloop.
    destruct Hloop as (r & vs & -> & Hvs & Hlast & Hfold).
    exists r.
    unfold pack in Hpack. cbn [slots dtype app] in Hpack.
    rewrite written_map_Some in Hpack. cbn in Hpack.
    injection Hpack as <-.
    split.
    { rewrite foldl_outcome_init by exact Hfn.
      rewrite outcome_bind. change (Z.of_nat (length [])) with 0 in Hfold.
      rewrite Hfold. reflexivity. }
    unfold stack.
    split; [cbn [leading_dim]; rewrite Hvs; reflexivity |].
    cbn [leading_dim last_slice].
    split.
    + intros Hne. destruct vs as [| v vs].
      * exfalso. apply Hne. rewrite <- Hvs. reflexivity.
      * exact Hlast.
    + intros Hz. destruct vs as [| v vs]; [reflexivity |].
      exfalso. injection Hz as Hz. rewrite <- Hvs in Hz. cbn in Hz. lia.
  - destruct xs as [| x0 rest].
    { rewrite scan_empty in H by exact Hfn. discriminate. }
    rewrite scan_outcome_no_init in H by exact Hfn.
    apply bind_outcome_Return in H as (s & Hloop & Hpack).
    apply (scan_simulates_foldl dt (x0 :: rest) parallel_iterations back_prop
             swap_memory fn (dtype_of x0) rest [x0] [x0] x0 fuel s
             eq_refl eq_refl) in Hloop.
    destruct Hloop as (r & vs & -> & Hvs & Hlast & Hfold).
    exists r.
    unfold pack in Hpack. cbn [slots dtype] in Hpack.
    rewrite written_map_Some in Hpack. cbn in Hpack.
    injection Hpack as <-.
    split.
    { rewrite foldl_outcome_no_init by exact Hfn.
      rewrite outcome_bind. change (Z.of_nat (length [x0])) with 1 in Hfold.
      rewrite Hfold. reflexivity. }
    unfold stack.
    split; [cbn [leading_dim length app]; rewrite Hvs; reflexivity |].
    split; [intros _; exact Hlast |].
    intros Hz. cbn in Hz. discriminate.
Qed.

Lemma scan_last_is_foldl_witness :
  outcome (scan 5 (Lambda2 (lift2 Z.add)) (vector [1; 2; 3; 4; 5; 6]) None
                default_parallel_iterations default_back_prop
                default_swap_memory None)
  = Return (vector [1; 3; 6; 10; 15; 21])
  /\ exists r : Value,
       outcome (foldl 5 (Lambda2 (lift2 Z.add)) (vector [1; 2; 3; 4; 5; 6]) None
                      default_parallel_iterations default_back_prop
                      default_swap_memory None)
       = Return r
       /\ leading_dim (vector [1; 3; 6; 10; 15; 21])
          = leading_dim (vector [1; 2; 3; 4; 5; 6])
       /\ (leading_dim (vector [1; 2; 3; 4; 5; 6]) <> Some 0 ->
           last_slice (vector [1; 3; 6; 10; 15; 21]) = Some r)
       /\ (leading_dim (vector [1; 2; 3; 4; 5; 6]) = Some 0 ->
           last_slice (vector [1; 3; 6; 10; 15; 21]) = None).
Proof.
  split; [reflexivity |].
  exact (scan_last_is_foldl 5 (Lambda2 (lift2 Z.add))
           (vector [1; 2; 3; 4; 5; 6]) None default_parallel_iterations
           default_back_prop default_swap_memory None
           (vector [1; 3; 6; 10; 15; 21]) eq_refl).
Defined.

(** C3, as stated, fails on an empty input with an initializer: [scan]
    succeeds with an empty output, which has the length of the input but no
    last slice, while [foldl] returns the initializer. *)
Lemma scan_of_empty_input_has_no_last_slice :
  outcome (scan 0 (Lambda2 (lift2 Z.add)) (vector []) (Some (int32 5))
                default_parallel_iterations default_back_prop
                default_swap_memory None)
  = Return (vector [])
  /\ outcome (foldl 0 (Lambda2 (lift2 Z.add)) (vector []) (Some (int32 5))
                    default_parallel_iterations default_back_prop
                    default_swap_memory None)
     = Return (int32 5)
  /\ leading_dim (vector []) = Some 0
  /\ last_slice (vector []) <> Some (int32 5).
Proof. repeat split. discriminate. Qed.

(** C4.  Without an initializer and on a non-empty input [x0 :: rest], [scan]
    writes output slot 0 with [x0] itself before the loop starts and before
    any application of [f]; the loop starts at index 1 and its iterations
    cover exactly the remaining [n - 1] slots, iteration [i] reading slot [i]
    and writing the new accumulator [f a x] to output slot [i], so that
    output slot [i + 1] holds the fold of the first [i + 1] elements of
    [rest] from [x0]. *)
Theorem scan_seeds_slot_0
    (f : Value -> Value -> Value) (dt : DType) (x0 : Value) (rest : list Value)
    (fuel : nat) (parallel_iterations : Z) (back_prop swap_memory : bool)
    (name : option string) :
  (length rest <= fuel)%nat ->
  Forall (fun v => dtype_of v = dtype_of x0) (scanl f x0 rest) ->
  scan fuel (Lambda2 f) (Stacked dt (x0 :: rest)) None
       parallel_iterations back_prop swap_memory name
  = (Return (Stacked (dtype_of x0) (x0 :: scanl f x0 rest)),
     prologue (Stacked dt (x0 :: rest)) (Z.of_nat (length (x0 :: rest)))
       ++ EvRead 0
       :: EvAllocate (dtype_of x0) (Z.of_nat (length (x0 :: rest))) false
       :: EvWrite 0 x0
       :: scan_steps f 1 x0 rest ++ [EvPack])
  /\ While fuel (fun '(i, a, ta) => i <? Z.of_nat (length (x0 :: rest)))
           (scan_compute (Lambda2 f)
              (mkTensorArray dt false (map Some (x0 :: rest))))
           (1, x0,
            mkTensorArray (dtype_of x0) false
              (Some x0 :: replicate (length rest) None))
           parallel_iterations back_prop swap_memory
     = (Return (Z.of_nat (length (x0 :: rest)), fold_left f rest x0,
                mkTensorArray (dtype_of x0) false
                  (map Some (x0 :: scanl f x0 rest))),
        scan_steps f 1 x0 rest)
  /\ Z.of_nat (length (scanl f x0 rest)) = Z.of_nat (length (x0 :: rest)) - 1
  /\ (forall i : nat,
        (i < length rest)%nat ->
        (x0 :: scanl f x0 rest) !! S i
        = Some (fold_left f (take (S i) rest) x0)).
Proof.
  intros Hfuel Hdt.
  split; [apply scan_run_no_init; assumption |].
  split.
  { exact (scan_loop dt (x0 :: rest) parallel_iterations back_prop swap_memory
             f (dtype_of x0) rest [x0] [x0] x0 fuel eq_refl eq_refl
             Hfuel eq_refl Hdt). }
  split; [rewrite scanl_length; cbn [length]; lia |].
  intros i Hi. cbn [lookup list_lookup]. apply scanl_lookup. exact Hi.
Qed.

Lemma scan_seeds_slot_0_witness :
  ((length (map int32 [2; 3; 4; 5; 6]%Z) <= 5)%nat
   /\ Forall (fun v => dtype_of v = dtype_of (int32 1))
             (scanl (lift2 Z.add) (int32 1) (map int32 [2; 3; 4; 5; 6])))
  /\ outcome (scan 5 (Lambda2 (lift2 Z.add)) (vector [1; 2; 3; 4; 5; 6]) None
                   default_parallel_iterations default_back_prop
                   default_swap_memory None)
     = Return (vector [1; 3; 6; 10; 15; 21]).
Proof.
  assert ((length (map int32 [2; 3; 4; 5; 6]%Z) <= 5)%nat
          /\ Forall (fun v => dtype_of v = dtype_of (int32 1))
                    (scanl (lift2 Z.add) (int32 1) (map int32 [2; 3; 4; 5; 6])))
    as H by (split; [cbn; lia | repeat constructor]).
  split; [exact H |].
  destruct H as [Hfuel Hdt].
  exact (f_equal fst
           (proj1 (scan_seeds_slot_0 (lift2 Z.add) DT_INT32 (int32 1)
                     (map int32 [2; 3; 4; 5; 6]) 5
                     default_parallel_iterations default_back_prop
                     default_swap_memory None Hfuel Hdt))).
Defined.

(** C5.  For every input sequence [xs] the output of [map_fn] has the length
    of [xs] and its slot [i] is [f] of input slot [i]: this holds of every
    output [map_fn] returns, and [map_fn] does return when the fuel covers
    the [n] iterations and [f] yields values of the element type declared for
    the output buffer.  With the identity function the output is the input
    itself. *)
Theorem map_fn_pointwise
    (f : Value -> Value) (dt : DType) (xs : list Value) (dtype : option DType)
    (fuel : nat) (parallel_iterations : Z) (back_prop swap_memory : bool)
    (name : option string) :
  (length xs <= fuel)%nat ->
  Forall (fun x => dtype_of (f x) = map_out_dtype dtype (Stacked dt xs)) xs ->
  outcome (map_fn fuel (Lambda1 f) (Stacked dt xs) dtype
                  parallel_iterations back_prop swap_memory name)
  = Return (Stacked (map_out_dtype dtype (Stacked dt xs)) (map f xs))
  /\ (forall (fuel' : nat) (out : Value),
        outcome (map_fn fuel' (Lambda1 f) (Stacked dt xs) dtype
                        parallel_iterations back_prop swap_memory name)
        = Return out ->
        leading_dim out = leading_dim (Stacked dt xs)
        /\ (forall i : nat,
              slice out i = option_map f (slice (Stacked dt xs) i)))
  /\ (homogeneous (Stacked dt xs) ->
      outcome (map_fn fuel (Lambda1 id) (Stacked dt xs) None
                      parallel_iterations back_prop swap_memory name)
      = Return (Stacked dt xs)).
Proof.
  intros Hfuel Hdt.
  split; [rewrite map_fn_run by assumption; reflexivity |].
  split.
  - intros fuel' out Hout. apply map_fn_returns in Hout. subst out.
    split; [cbn [leading_dim]; rewrite length_map; reflexivity |].
    intros i. cbn [slice]. apply list_lookup_fmap.
  - intros Hhom. rewrite map_fn_run; [| exact Hfuel | exact Hhom].
    cbn [outcome fst map_out_dtype dtype_of]. rewrite map_id. reflexivity.
Qed.

Lemma map_fn_pointwise_witness :
  ((length (map int32 [1; 2; 3; 4; 5; 6]%Z) <= 6)%nat
   /\ Forall (fun x => dtype_of (lift1 (fun z => z * z) x)
                       = map_out_dtype None (vector [1; 2; 3; 4; 5; 6]))
             (map int32 [1; 2; 3; 4; 5; 6]))
  /\ outcome (map_fn 6 (Lambda1 (lift1 (fun z => z * z)))
                     (vector [1; 2; 3; 4; 5; 6]) None
                     default_parallel_iterations default_back_prop
                     default_swap_memory None)
     = Return (vector [1; 4; 9; 16; 25; 36]).
Proof.
  assert ((length (map int32 [1; 2; 3; 4; 5; 6]%Z) <= 6)%nat
          /\ Forall (fun x => dtype_of (lift1 (fun z => z * z) x)
                              = map_out_dtype None (vector [1; 2; 3; 4; 5; 6]))
                    (map int32 [1; 2; 3; 4; 5; 6]))
    as H by (split; [cbn; lia | repeat constructor]).
  split; [exact H |].
  destruct H as [Hfuel Hdt].
  exact (proj1 (map_fn_pointwise (lift1 (fun z => z * z)) DT_INT32
                  (map int32 [1; 2; 3; 4; 5; 6]) None 6
                  default_parallel_iterations default_back_prop
                  default_swap_memory None Hfuel Hdt)).
Defined.

(** C6.  For a value [v] of rank at least 1, unpacking [v] into a buffer of
    [v]'s element type gives a buffer whose capacity is the leading-dimension
    size of [v] and whose slot [i] reads as the [i]-th leading slice of [v];
    packing that buffer gives [v] back, also along the path of the source
    (allocate, unpack, pack).  Unpacking a rank-0 value raises
    [ShapeError]. *)
Theorem unpack_pack_roundtrip (v : Value) (ta : TensorArray) :
  rank_ge_1 v = true ->
  dtype ta = dtype_of v ->
  (exists buf : TensorArray,
      unpack ta v = (Return buf, [EvUnpack])
      /\ Some (capacity buf) = leading_dim v
      /\ (forall (i : nat) (x : Value),
            slice v i = Some x ->
            read buf (Z.of_nat i) = (Return x, [EvRead (Z.of_nat i)]))
      /\ (forall i : nat,
            slice v i = None ->
            read buf (Z.of_nat i) = (Raise IndexError, [EvRead (Z.of_nat i)]))
      /\ pack buf = (Return v, [EvPack]))
  /\ (forall n : Z,
        (let* ta0 := allocate (dtype_of v) n false in
         let* buf := unpack ta0 v in
         pack buf)
        = (Return v, [EvAllocate (dtype_of v) n false; EvUnpack; EvPack]))
  /\ (forall (dt : DType) (x : Z),
        unpack ta (Scalar dt x) = (Raise ShapeError, [EvUnpack])).
Proof.
  intros Hrank Hdt. destruct v as [dt x | dt xs]; [discriminate |].
  cbn [dtype_of] in Hdt.
  split; [| split].
  - exists (mkTensorArray (dtype ta) (dynamic_size ta) (map Some xs)).
    split; [reflexivity |].
    split; [unfold capacity; cbn; rewrite length_map; reflexivity |].
    split; [| split].
    + intros i x Hx. apply read_written. cbn in *.
      rewrite list_lookup_fmap, Hx. reflexivity.
    + intros i Hi. apply read_out_of_range. right.
      unfold capacity. cbn in *. rewrite length_map.
      apply lookup_ge_None in Hi. lia.
    + unfold pack. cbn [slots dtype]. rewrite written_map_Some, Hdt.
      reflexivity.
  - intros n. cbn [allocate unpack unstack bind emit ret app fst snd dtype
                   dynamic_size dtype_of].
    unfold pack. cbn [slots dtype]. rewrite written_map_Some. reflexivity.
  - reflexivity.
Qed.

Lemma unpack_pack_roundtrip_witness :
  (rank_ge_1 (vector [1; 2; 3]) = true
   /\ dtype (mkTensorArray DT_INT32 false (replicate 3%nat None))
      = dtype_of (vector [1; 2; 3]))
  /\ (let* ta0 := allocate (dtype_of (vector [1; 2; 3])) 3 false in
      let* buf := unpack ta0 (vector [1; 2; 3]) in
      pack buf)
     = (Return (vector [1; 2; 3]),
        [EvAllocate DT_INT32 3 false; EvUnpack; EvPack]).
Proof.
  split; [split; reflexivity |].
  exact (proj1 (proj2 (unpack_pack_roundtrip (vector [1; 2; 3])
                         (mkTensorArray DT_INT32 false (replicate 3%nat None))
                         eq_refl eq_refl)) 3).
Defined.

(** C7, as the code has it.  Every combinator checks [callable(fn)] first: a
    [fn] that is not callable makes the call raise
    [TypeError("fn must be callable.")] with no event performed, so no shape
    query, no buffer allocation and no application has taken place.  The
    arity of a callable is not examined by that check. *)
Theorem not_callable_fails_before_allocation
    (fuel : nat) (fn : PyObject) (elems : Value) (initializer : option Value)
    (dtype : option DType) (parallel_iterations : Z)
    (back_prop swap_memory : bool) (name : option string) :
  callable fn = false ->
  foldl fuel fn elems initializer parallel_iterations back_prop swap_memory name
    = (Raise NotCallableError, [])
  /\ foldr fuel fn elems initializer parallel_iterations back_prop swap_memory
           name
     = (Raise NotCallableError, [])
  /\ map_fn fuel fn elems dtype parallel_iterations back_prop swap_memory name
     = (Raise NotCallableError, [])
  /\ scan fuel fn elems initializer parallel_iterations back_prop swap_memory
          name
     = (Raise NotCallableError, []).
Proof. apply not_callable_rejected. Qed.

Lemma not_callable_fails_before_allocation_witness :
  callable PyNone = false
  /\ foldl 6 PyNone (vector [1; 2; 3]) None default_parallel_iterations
           default_back_prop default_swap_memory None
     = (Raise NotCallableError, []).
Proof.
  split; [reflexivity |].
  exact (proj1 (not_callable_fails_before_allocation 6 PyNone (vector [1; 2; 3])
                  None None default_parallel_iterations default_back_prop
                  default_swap_memory None eq_refl)).
Defined.

(** C7, as stated, fails for a callable of the wrong arity: a one-argument
    function given to [foldl] is not a valid callable of arity 2, yet the
    shape query, the allocation and unpacking of the input buffer and two
    reads take place before the application raises Python's own error. *)
Lemma wrong_arity_fails_after_allocation :
  valid_callable 2 (Lambda1 id) = false
  /\ foldl 2 (Lambda1 id) (vector [1; 2]) None default_parallel_iterations
           default_back_prop default_swap_memory None
     = (Raise ArgumentCountError,
        [EvShape; EvAllocate DT_INT32 2 false; EvUnpack; EvRead 0; EvRead 1])
  /\ foldl 2 (Lambda1 id) (vector [1; 2]) None default_parallel_iterations
           default_back_prop default_swap_memory None
     <> (Raise NotCallableError, []).
Proof. split; [reflexivity |]. split; [reflexivity | discriminate]. Qed.

(** C8.  On an empty input without an initializer, [foldl] and [scan] raise
    [IndexError] at their read of slot 0 and [foldr] raises [IndexError] at
    its read of slot [n - 1 = -1]: the read is the last event of the run and
    is out of the range of the zero-slot buffer; no empty result is
    returned. *)
Theorem empty_input_without_initializer
    (fuel : nat) (fn : PyObject) (dt : DType) (parallel_iterations : Z)
    (back_prop swap_memory : bool) (name : option string) :
  callable fn = true ->
  foldl fuel fn (Stacked dt []) None parallel_iterations back_prop swap_memory
        name
    = (Raise IndexError, prologue (Stacked dt []) 0 ++ [EvRead 0])
  /\ scan fuel fn (Stacked dt []) None parallel_iterations back_prop swap_memory
          name
     = (Raise IndexError, prologue (Stacked dt []) 0 ++ [EvRead 0])
  /\ foldr fuel fn (Stacked dt []) None parallel_iterations back_prop
           swap_memory name
     = (Raise IndexError, prologue (Stacked dt []) 0 ++ [EvRead (0 - 1)])
  /\ capacity (mkTensorArray dt false (map Some [])) = 0
  /\ read (mkTensorArray dt false (map Some [])) 0
     = (Raise IndexError, [EvRead 0])
  /\ read (mkTensorArray dt false (map Some [])) (0 - 1)
     = (Raise IndexError, [EvRead (0 - 1)]).
Proof.
  intros Hfn.
  split; [apply foldl_empty; exact Hfn |].
  split; [apply scan_empty; exact Hfn |].
  split; [apply foldr_empty; exact Hfn |].
  repeat split.
Qed.

Lemma empty_input_without_initializer_witness :
  callable (Lambda2 (lift2 Z.add)) = true
  /\ outcome (foldr 6 (Lambda2 (lift2 Z.add)) (vector []) None
                    default_parallel_iterations default_back_prop
                    default_swap_memory None)
     = Raise IndexError.
Proof.
  split; [reflexivity |].
  exact (f_equal fst
           (proj1 (proj2 (proj2
              (empty_input_without_initializer 6 (Lambda2 (lift2 Z.add))
                 DT_INT32 default_parallel_iterations default_back_prop
                 default_swap_memory None eq_refl))))).
Defined.

(** C9.  Two invocations of a combinator that differ only in
    [parallel_iterations] and [swap_memory] give the same outcome and the
    same events: the combinators hand the knobs to [While] and use them
    nowhere else, and the loop takes the same iterations under any knobs. *)
Theorem scheduling_knobs_do_not_change_results
    (fuel : nat) (fn : PyObject) (elems : Value) (initializer : option Value)
    (dtype : option DType) (back_prop : bool) (name : option string)
    (parallel_iterations1 parallel_iterations2 : Z)
    (swap_memory1 swap_memory2 : bool) :
  foldl fuel fn elems initializer parallel_iterations1 back_prop swap_memory1
        name
  = foldl fuel fn elems initializer parallel_iterations2 back_prop swap_memory2
          name
  /\ foldr fuel fn elems initializer parallel_iterations1 back_prop swap_memory1
           name
     = foldr fuel fn elems initializer parallel_iterations2 back_prop
             swap_memory2 name
  /\ map_fn fuel fn elems dtype parallel_iterations1 back_prop swap_memory1 name
     = map_fn fuel fn elems dtype parallel_iterations2 back_prop swap_memory2
              name
  /\ scan fuel fn elems initializer parallel_iterations1 back_prop swap_memory1
          name
     = scan fuel fn elems initializer parallel_iterations2 back_prop
            swap_memory2 name.
Proof.
  unfold foldl, foldr, map_fn, scan, op_scope.
  destruct (callable fn); cbn [negb]; [| repeat split; reflexivity].
  repeat split.
  - do 3 (apply bind_ext; intros ?). apply bind_ext. intros [? ?].
    rewrite (While_knobs _ _ parallel_iterations1 parallel_iterations2
               back_prop back_prop swap_memory1 swap_memory2).
    reflexivity.
  - do 3 (apply bind_ext; intros ?). apply bind_ext. intros [? ?].
    rewrite (While_knobs _ _ parallel_iterations1 parallel_iterations2
               back_prop back_prop swap_memory1 swap_memory2).
    reflexivity.
  - do 4 (apply bind_ext; intros ?).
    rewrite (While_knobs _ _ parallel_iterations1 parallel_iterations2
               back_prop back_prop swap_memory1 swap_memory2).
    reflexivity.
  - do 3 (apply bind_ext; intros ?). apply bind_ext. intros [? ?].
    do 2 (apply bind_ext; intros ?).
    rewrite (While_knobs _ _ parallel_iterations1 parallel_iterations2
               back_prop back_prop swap_memory1 swap_memory2).
    reflexivity.
Qed.

(** C10.  On an empty input [map_fn] succeeds and returns an empty sequence:
    its loop takes zero iterations, its run contains no read of an input
    slot, and packing the zero-slot output buffer gives a value of length 0.
    The other three combinators raise [IndexError] on the same input when no
    initializer is given. *)
Theorem map_fn_accepts_empty_input
    (fuel : nat) (f : Value -> Value) (g : Value -> Value -> Value)
    (dt : DType) (dtype : option DType) (parallel_iterations : Z)
    (back_prop swap_memory : bool) (name : option string) :
  map_fn fuel (Lambda1 f) (Stacked dt []) dtype
         parallel_iterations back_prop swap_memory name
  = (Return (Stacked (map_out_dtype dtype (Stacked dt [])) []),
     prologue (Stacked dt []) 0
       ++ [EvAllocate (map_out_dtype dtype (Stacked dt [])) 0 false; EvPack])
  /\ leading_dim (Stacked (map_out_dtype dtype (Stacked dt [])) []) = Some 0
  /\ While fuel (fun '(i, a) => i <? 0)
           (map_compute (Lambda1 f) (mkTensorArray dt false (map Some [])))
           (0, mkTensorArray (map_out_dtype dtype (Stacked dt [])) false [])
           parallel_iterations back_prop swap_memory
     = ret (0, mkTensorArray (map_out_dtype dtype (Stacked dt [])) false [])
  /\ (forall i : Z,
        ~ In (EvRead i)
             (events (map_fn fuel (Lambda1 f) (Stacked dt []) dtype
                             parallel_iterations back_prop swap_memory name)))
  /\ pack (mkTensorArray (map_out_dtype dtype (Stacked dt [])) false [])
     = (Return (Stacked (map_out_dtype dtype (Stacked dt [])) []), [EvPack])
  /\ outcome (foldl fuel (Lambda2 g) (Stacked dt []) None
                    parallel_iterations back_prop swap_memory name)
     = Raise IndexError
  /\ outcome (foldr fuel (Lambda2 g) (Stacked dt []) None
                    parallel_iterations back_prop swap_memory name)
     = Raise IndexError
  /\ outcome (scan fuel (Lambda2 g) (Stacked dt []) None
                   parallel_iterations back_prop swap_memory name)
     = Raise IndexError.
Proof.
  split; [apply map_fn_empty; reflexivity |].
  split; [reflexivity |].
  split; [apply While_exit; reflexivity |].
  split.
  { intros i. rewrite map_fn_empty by reflexivity.
    cbn. intros [H | [H | [H | [H | [H | []]]]]]; discriminate. }
  split; [reflexivity |].
  rewrite foldl_empty, foldr_empty, scan_empty by reflexivity.
  repeat split.
Qed.



(** ** The loops against their reference outcomes *)

Lemma types_index_value_decide (i j : Z) (a b : Value) :
  bool_decide (element_types (i, a) = element_types (j, b))
  = bool_decide (dtype_of a = dtype_of b).
Proof.
  apply bool_decide_ext. split.
  - change ([DT_INT32] ++ [dtype_of a] = [DT_INT32] ++ [dtype_of b]
            -> dtype_of a = dtype_of b).
    cbn [app]. congruence.
  - apply types_index_value.
Qed.

Lemma types_index_value_buffer_decide (i j : Z) (a b : Value) (odt : DType)
    (l1 l2 : list (option Value)) :
  bool_decide (element_types (i, a, mkTensorArray odt false l1)
               = element_types (j, b, mkTensorArray odt false l2))
  = bool_decide (dtype_of a = dtype_of b).
Proof.
  apply bool_decide_ext. split.
  - apply types_index_value_buffer_inv.
  - apply types_index_value_buffer.
Qed.

(** A write of a value of another element type fails on the element type. *)
Lemma write_mismatch (dt : DType) (l1 l2 : list (option Value))
    (o : option Value) (v : Value) :
  dtype_of v <> dt ->
  outcome (write (mkTensorArray dt false (l1 ++ o :: l2))
                 (Z.of_nat (length l1)) v)
  = Raise ElementTypeError.
Proof.
  intros Hdt. unfold write. rewrite capacity_mk, length_app.
  cbn [length dtype dynamic_size slots].
  replace (Z.of_nat (length l1) <? 0) with false
    by (symmetry; apply Z.ltb_ge; lia).
  replace (Z.of_nat (length l1 + S (length l2)) <=? Z.of_nat (length l1))
    with false by (symmetry; apply Z.leb_gt; lia).
  rewrite bool_decide_eq_false_2 by exact Hdt. reflexivity.
Qed.

Section Refinement.
Variables (dt : DType) (xs : list Value).
Variables (parallel_iterations : Z) (back_prop swap_memory : bool).
Variable (fn : PyObject).

(** The accumulator the loop of [foldl] ends with is the reference fold of
    the slots from its index on, whatever [fn] and the fuel are. *)
Lemma foldl_loop_outcome (rest : list Value) :
  forall (pre : list Value) (a : Value) (fuel : nat),
    xs = pre ++ rest ->
    outcome
      (let* (_, r_a) :=
         While fuel (fun '(i, a) => i <? Z.of_nat (length xs))
               (foldl_compute fn (mkTensorArray dt false (map Some xs)))
               (Z.of_nat (length pre), a)
               parallel_iterations back_prop swap_memory in
       ret r_a)
    = fold_outcome fn fuel a rest.
Proof.
  induction rest as [| x rest IH]; intros pre a fuel Hxs.
  - rewrite app_nil_r in Hxs. subst pre.
    rewrite While_exit by apply Z.ltb_irrefl.
    rewrite outcome_bind_ret. reflexivity.
  - assert ((Z.of_nat (length pre) <? Z.of_nat (length xs)) = true) as Hcond
      by (apply Z.ltb_lt; rewrite Hxs, length_app; cbn; lia).
    destruct fuel as [| fuel].
    { rewrite While_out_of_fuel by exact Hcond. reflexivity. }
    rewrite While_step by exact Hcond.
    rewrite outcome_bind, outcome_bind.
    unfold foldl_compute at 1.
    rewrite (read_unpacked dt xs (length pre) x)
      by (rewrite Hxs; apply list_lookup_middle; reflexivity).
    rewrite outcome_bind_Return, outcome_bind.
    cbn [fold_outcome].
    destruct (outcome (call2 fn a x)) as [a' | e |]; try reflexivity.
    cbn [outcome ret fst].
    rewrite types_index_value_decide.
    destruct (bool_decide (dtype_of a' = dtype_of a)); [| reflexivity].
    rewrite <- outcome_bind.
    replace (Z.of_nat (length pre) + 1) with (Z.of_nat (length (pre ++ [x])))
      by (rewrite length_app; cbn; lia).
    apply IH. rewrite <- app_assoc. exact Hxs.
Qed.

(** The accumulator the loop of [foldr] ends with is the reference fold of
    the slots below its index, last first. *)
Lemma foldr_loop_outcome :
  forall (pre post : list Value) (a : Value) (fuel : nat),
    xs = pre ++ post ->
    outcome
      (let* (_, r_a) :=
         While fuel (fun '(i, a) => i >? 0)
               (foldr_compute fn (mkTensorArray dt false (map Some xs)))
               (Z.of_nat (length pre), a)
               parallel_iterations back_prop swap_memory in
       ret r_a)
    = fold_outcome fn fuel a (rev pre).
Proof.
  induction pre as [| x pre IH] using rev_ind; intros post a fuel Hxs.
  - rewrite While_exit by reflexivity.
    rewrite outcome_bind_ret. reflexivity.
  - replace (Z.of_nat (length (pre ++ [x]))) with (Z.of_nat (S (length pre)))
      by (rewrite length_app; cbn; lia).
    assert ((Z.of_nat (S (length pre)) >? 0) = true) as Hcond
      by (apply Z.gtb_lt; lia).
    rewrite rev_app_distr. cbn [rev app].
    destruct fuel as [| fuel].
    { rewrite While_out_of_fuel by exact Hcond. reflexivity. }
    rewrite While_step by exact Hcond.
    rewrite outcome_bind, outcome_bind.
    unfold foldr_compute at 1.
    replace (Z.of_nat (S (length pre)) - 1) with (Z.of_nat (length pre))
      by lia.
    rewrite (read_unpacked dt xs (length pre) x)
      by (rewrite Hxs, <- app_assoc; apply list_lookup_middle; reflexivity).
    rewrite outcome_bind_Return, outcome_bind.
    cbn [fold_outcome].
    destruct (outcome (call2 fn a x)) as [a' | e |]; try reflexivity.
    cbn [outcome ret fst].
    rewrite types_index_value_decide.
    destruct (bool_decide (dtype_of a' = dtype_of a)); [| reflexivity].
    rewrite <- outcome_bind.
    apply (IH ([x] ++ post)). rewrite Hxs, <- app_assoc. reflexivity.
Qed.

Lemma outcome_map_map {A B C : Type} (g : B -> C) (h : A -> B)
    (o : Outcome A) :
  outcome_map g (outcome_map h o) = outcome_map (fun a => g (h a)) o.
Proof. destruct o; reflexivity. Qed.

(** What [map_fn] packs after its loop is the reference map of the slots
    from the index on, appended to what is already written. *)
Lemma map_loop_outcome (odt : DType) (rest : list Value) :
  forall (pre outl : list Value) (fuel : nat),
    xs = pre ++ rest ->
    length outl = length pre ->
    outcome
      (let* (_, r_a) :=
         While fuel (fun '(i, a) => i <? Z.of_nat (length xs))
               (map_compute fn (mkTensorArray dt false (map Some xs)))
               (Z.of_nat (length pre),
                mkTensorArray odt false
                  (map Some outl ++ replicate (length rest) None))
               parallel_iterations back_prop swap_memory in
       pack r_a)
    = outcome_map (fun ys => Stacked odt (outl ++ ys))
                  (map_outcome fn odt fuel rest).
Proof.
  induction rest as [| x rest IH]; intros pre outl fuel Hxs Hout.
  - rewrite app_nil_r in Hxs. subst pre.
    rewrite While_exit by apply Z.ltb_irrefl.
    rewrite outcome_bind_ret. unfold pack.
    cbn [slots tensor_array_ops.dtype replicate length
         map_outcome scan_outcome outcome_map].
    rewrite !app_nil_r, written_map_Some. reflexivity.
  - assert ((Z.of_nat (length pre) <? Z.of_nat (length xs)) = true) as Hcond
      by (apply Z.ltb_lt; rewrite Hxs, length_app; cbn; lia).
    destruct fuel as [| fuel].
    { rewrite While_out_of_fuel by exact Hcond. reflexivity. }
    rewrite While_step by exact Hcond.
    rewrite outcome_bind, outcome_bind.
    unfold map_compute at 1.
    rewrite (read_unpacked dt xs (length pre) x)
      by (rewrite Hxs; apply list_lookup_middle; reflexivity).
    rewrite outcome_bind_Return, outcome_bind.
    cbn [map_outcome].
    destruct (outcome (call1 fn x)) as [y | e |]; try reflexivity.
    assert (length pre = length (map Some outl)) as Hlen
      by (rewrite length_map; congruence).
    cbn [replicate length]. rewrite Hlen, outcome_bind.
    destruct (decide (dtype_of y = odt)) as [Hy | Hy].
    + rewrite write_in_range by exact Hy.
      rewrite bool_decide_eq_true_2 by exact Hy.
      cbn [outcome ret fst].
      rewrite bool_decide_eq_true_2 by apply types_index_buffer.
      rewrite <- outcome_bind, <- Hlen.
      replace (Z.of_nat (length pre) + 1)
        with (Z.of_nat (length (pre ++ [x])))
        by (rewrite length_app; cbn; lia).
      replace (map Some outl ++ Some y :: replicate (length rest) None)
        with (map Some (outl ++ [y]) ++ replicate (length rest) None)
        by (rewrite map_app, <- app_assoc; reflexivity).
      rewrite (IH (pre ++ [x]) (outl ++ [y]) fuel);
        [| rewrite <- app_assoc; exact Hxs | rewrite !length_app; cbn; lia].
      rewrite outcome_map_map.
      destruct (map_outcome fn odt fuel rest); cbn [outcome_map];
        rewrite <- ?app_assoc; reflexivity.
    + rewrite write_mismatch by exact Hy.
      rewrite bool_decide_eq_false_2 by exact Hy. reflexivity.
Qed.

(** What [scan] packs after its loop is the reference scan of the slots from
    the index on, appended to what is already written. *)
Lemma scan_loop_outcome (odt : DType) (rest : list Value) :
  forall (pre outl : list Value) (a : Value) (fuel : nat),
    xs = pre ++ rest ->
    length outl = length pre ->
    dtype_of a = odt ->
    outcome
      (let* (_, _, r_a) :=
         While fuel (fun '(i, a, ta) => i <? Z.of_nat (length xs))
               (scan_compute fn (mkTensorArray dt false (map Some xs)))
               (Z.of_nat (length pre), a,
                mkTensorArray odt false
                  (map Some outl ++ replicate (length rest) None))
               parallel_iterations back_prop swap_memory in
       pack r_a)
    = outcome_map (fun ys => Stacked odt (outl ++ ys))
                  (scan_outcome fn odt fuel a rest).
Proof.
  induction rest as [| x rest IH]; intros pre outl a fuel Hxs Hout Ha.
  - rewrite app_nil_r in Hxs. subst pre.
    rewrite While_exit by apply Z.ltb_irrefl.
    rewrite outcome_bind_ret. unfold pack.
    cbn [slots tensor_array_ops.dtype replicate length
         map_outcome scan_outcome outcome_map].
    rewrite !app_nil_r, written_map_Some. reflexivity.
  - assert ((Z.of_nat (length pre) <? Z.of_nat (length xs)) = true) as Hcond
      by (apply Z.ltb_lt; rewrite Hxs, length_app; cbn; lia).
    destruct fuel as [| fuel].
    { rewrite While_out_of_fuel by exact Hcond. reflexivity. }
    rewrite While_step by exact Hcond.
    rewrite outcome_bind, outcome_bind.
    unfold scan_compute at 1.
    rewrite (read_unpacked dt xs (length pre) x)
      by (rewrite Hxs; apply list_lookup_middle; reflexivity).
    rewrite outcome_bind_Return, outcome_bind.
    cbn [scan_outcome].
    destruct (outcome (call2 fn a x)) as [a' | e |]; try reflexivity.
    assert (length pre = length (map Some outl)) as Hlen
      by (rewrite length_map; congruence).
    cbn [replicate length]. rewrite Hlen, outcome_bind.
    destruct (decide (dtype_of a' = odt)) as [Ha' | Ha'].
    + rewrite write_in_range by exact Ha'.
      rewrite bool_decide_eq_true_2 by exact Ha'.
      cbn [outcome ret fst].
      rewrite bool_decide_eq_true_2
        by (apply types_index_value_buffer; congruence).
      rewrite <- outcome_bind, <- Hlen.
      replace (Z.of_nat (length pre) + 1)
        with (Z.of_nat (length (pre ++ [x])))
        by (rewrite length_app; cbn; lia).
      replace (map Some outl ++ Some a' :: replicate (length rest) None)
        with (map Some (outl ++ [a']) ++ replicate (length rest) None)
        by (rewrite map_app, <- app_assoc; reflexivity).
      rewrite (IH (pre ++ [x]) (outl ++ [a']) a' fuel);
        [| rewrite <- app_assoc; exact Hxs | rewrite !length_app; cbn; lia
         | exact Ha'].
      rewrite outcome_map_map.
      destruct (scan_outcome fn odt fuel a' rest); cbn [outcome_map];
        rewrite <- ?app_assoc; reflexivity.
    + rewrite write_mismatch by exact Ha'.
      rewrite bool_decide_eq_false_2 by exact Ha'. reflexivity.
Qed.

End Refinement.

(** ** The combinators against the reference outcomes *)

Section OutcomeRefs.
Variables (parallel_iterations : Z) (back_prop swap_memory : bool).
Variable (name : option string).
Variables (fuel : nat) (fn : PyObject) (dt : DType).
Hypothesis Hfn : callable fn = true.

Lemma foldl_ref_init (xs : list Value) (init : Value) :
  outcome (foldl fuel fn (Stacked dt xs) (Some init)
                 parallel_iterations back_prop swap_memory name)
  = fold_outcome fn fuel init xs.
Proof.
  rewrite foldl_outcome_init by exact Hfn.
  exact (foldl_loop_outcome dt xs parallel_iterations back_prop swap_memory
           fn xs [] init fuel eq_refl).
Qed.

Lemma foldl_ref_no_init (x0 : Value) (rest : list Value) :
  outcome (foldl fuel fn (Stacked dt (x0 :: rest)) None
                 parallel_iterations back_prop swap_memory name)
  = fold_outcome fn fuel x0 rest.
Proof.
  rewrite foldl_outcome_no_init by exact Hfn.
  exact (foldl_loop_outcome dt (x0 :: rest) parallel_iterations back_prop
           swap_memory fn rest [x0] x0 fuel eq_refl).
Qed.

Lemma foldr_ref_init (xs : list Value) (init : Value) :
  outcome (foldr fuel fn (Stacked dt xs) (Some init)
                 parallel_iterations back_prop swap_memory name)
  = fold_outcome fn fuel init (rev xs).
Proof.
  rewrite foldr_outcome_init by exact Hfn.
  exact (foldr_loop_outcome dt xs parallel_iterations back_prop swap_memory
           fn xs [] init fuel (eq_sym (app_nil_r xs))).
Qed.

Lemma foldr_ref_no_init (pre : list Value) (xl : Value) :
  outcome (foldr fuel fn (Stacked dt (pre ++ [xl])) None
                 parallel_iterations back_prop swap_memory name)
  = fold_outcome fn fuel xl (rev pre).
Proof.
  rewrite foldr_outcome_no_init by exact Hfn.
  exact (foldr_loop_outcome dt (pre ++ [xl]) parallel_iterations back_prop
           swap_memory fn pre [xl] xl fuel eq_refl).
Qed.

Lemma map_fn_ref (xs : list Value) (dtype : option DType) :
  outcome (map_fn fuel fn (Stacked dt xs) dtype
                  parallel_iterations back_prop swap_memory name)
  = outcome_map (Stacked (map_out_dtype dtype (Stacked dt xs)))
                (map_outcome fn (map_out_dtype dtype (Stacked dt xs)) fuel xs).
Proof.
  rewrite map_fn_outcome by exact Hfn.
  exact (map_loop_outcome dt xs parallel_iterations back_prop swap_memory
           fn (map_out_dtype dtype (Stacked dt xs)) xs [] [] fuel
           eq_refl eq_refl).
Qed.

Lemma scan_ref_init (xs : list Value) (init : Value) :
  outcome (scan fuel fn (Stacked dt xs) (Some init)
                parallel_iterations back_prop swap_memory name)
  = outcome_map (Stacked (dtype_of init))
                (scan_outcome fn (dtype_of init) fuel init xs).
Proof.
  rewrite scan_outcome_init by exact Hfn.
  exact (scan_loop_outcome dt xs parallel_iterations back_prop swap_memory
           fn (dtype_of init) xs [] [] init fuel eq_refl eq_refl eq_refl).
Qed.

Lemma scan_ref_no_init (x0 : Value) (rest : list Value) :
  outcome (scan fuel fn (Stacked dt (x0 :: rest)) None
                parallel_iterations back_prop swap_memory name)
  = outcome_map (fun ys => Stacked (dtype_of x0) (x0 :: ys))
                (scan_outcome fn (dtype_of x0) fuel x0 rest).
Proof.
  rewrite scan_outcome_no_init by exact Hfn.
  exact (scan_loop_outcome dt (x0 :: rest) parallel_iterations back_prop
           swap_memory fn (dtype_of x0) rest [x0] [x0] x0 fuel
           eq_refl eq_refl eq_refl).
Qed.

End OutcomeRefs.

(** ** Errors of the loops *)

Lemma call2_raises (fn : PyObject) (a x : Value) (e : Error) :
  outcome (call2 fn a x) = Raise e ->
  e = ArgumentCountError \/ e = ObjectNotCallable.
Proof. destruct fn; cbn; intros H; inversion H; auto. Qed.

Lemma call1_raises (fn : PyObject) (x : Value) (e : Error) :
  outcome (call1 fn x) = Raise e ->
  e = ArgumentCountError \/ e = ObjectNotCallable.
Proof. destruct fn; cbn; intros H; inversion H; auto. Qed.

(** The only errors of a fold are those of applying [fn] and the change of
    the accumulator's element type. *)
Lemma fold_outcome_raises (fn : PyObject) (vals : list Value) :
  forall (fuel : nat) (a : Value) (e : Error),
    fold_outcome fn fuel a vals = Raise e ->
    e = TypeMismatchError \/ e = ArgumentCountError \/ e = ObjectNotCallable.
Proof.
  induction vals as [| x vals IH]; intros fuel a e H; cbn in H.
  - discriminate.
  - destruct fuel as [| fuel]; [discriminate |].
    destruct (outcome (call2 fn a x)) as [a' | e' |] eqn:Hcall.
    + destruct (bool_decide (dtype_of a' = dtype_of a)).
      * eapply IH. exact H.
      * left. congruence.
    + right. injection H as <-. eapply call2_raises. exact Hcall.
    + discriminate.
Qed.

Lemma map_outcome_raises (fn : PyObject) (odt : DType) (vals : list Value) :
  forall (fuel : nat) (e : Error),
    map_outcome fn odt fuel vals = Raise e ->
    e = ElementTypeError \/ e = ArgumentCountError \/ e = ObjectNotCallable.
Proof.
  induction vals as [| x vals IH]; intros fuel e H; cbn in H.
  - discriminate.
  - destruct fuel as [| fuel]; [discriminate |].
    destruct (outcome (call1 fn x)) as [y | e' |] eqn:Hcall.
    + destruct (bool_decide (dtype_of y = odt)).
      * destruct (map_outcome fn odt fuel vals) eqn:Hrec; cbn in H;
          try discriminate.
        injection H as <-. eapply IH. exact Hrec.
      * left. congruence.
    + right. injection H as <-. eapply call1_raises. exact Hcall.
    + discriminate.
Qed.

Lemma scan_outcome_raises (fn : PyObject) (odt : DType) (vals : list Value) :
  forall (fuel : nat) (a : Value) (e : Error),
    scan_outcome fn odt fuel a vals = Raise e ->
    e = ElementTypeError \/ e = ArgumentCountError \/ e = ObjectNotCallable.
Proof.
  induction vals as [| x vals IH]; intros fuel a e H; cbn in H.
  - discriminate.
  - destruct fuel as [| fuel]; [discriminate |].
    destruct (outcome (call2 fn a x)) as [a' | e' |] eqn:Hcall.
    + destruct (bool_decide (dtype_of a' = odt)).
      * destruct (scan_outcome fn odt fuel a' vals) eqn:Hrec; cbn in H;
          try discriminate.
        injection H as <-. eapply IH. exact Hrec.
      * left. congruence.
    + right. injection H as <-. eapply call2_raises. exact Hcall.
    + discriminate.
Qed.

Lemma outcome_map_raises {A B : Type} (g : A -> B) (o : Outcome A) (e : Error) :
  outcome_map g o = Raise e -> o = Raise e.
Proof. destruct o; cbn; congruence. Qed.

(** ** Further properties of the combinators *)

(** X1.  "If [initializer] is None ... its first element is used as the
    initializer": [foldl] without an initializer on [x0 :: rest] has the
    outcome of [foldl] on [rest] with initializer [x0], for every [fn] and
    every fuel. *)
Theorem foldl_first_element_is_initializer
    (fuel : nat) (fn : PyObject) (dt : DType) (x0 : Value) (rest : list Value)
    (parallel_iterations : Z) (back_prop swap_memory : bool)
    (name : option string) :
  outcome (foldl fuel fn (Stacked dt (x0 :: rest)) None
                 parallel_iterations back_prop swap_memory name)
  = outcome (foldl fuel fn (Stacked dt rest) (Some x0)
                   parallel_iterations back_prop swap_memory name).
Proof.
  destruct (callable fn) eqn:Hfn.
  - rewrite foldl_ref_no_init, foldl_ref_init by exact Hfn. reflexivity.
  - unfold foldl, op_scope. rewrite Hfn. reflexivity.
Qed.

(** X2.  In [foldr] it is the last element that serves as the initializer
    when none is given: [foldr] on [pre ++ [xl]] without an initializer has
    the outcome of [foldr] on [pre] with initializer [xl], for every [fn] and
    every fuel. *)
Theorem foldr_last_element_is_initializer
    (fuel : nat) (fn : PyObject) (dt : DType) (pre : list Value) (xl : Value)
    (parallel_iterations : Z) (back_prop swap_memory : bool)
    (name : option string) :
  outcome (foldr fuel fn (Stacked dt (pre ++ [xl])) None
                 parallel_iterations back_prop swap_memory name)
  = outcome (foldr fuel fn (Stacked dt pre) (Some xl)
                   parallel_iterations back_prop swap_memory name).
Proof.
  destruct (callable fn) eqn:Hfn.
  - rewrite foldr_ref_no_init, foldr_ref_init by exact Hfn. reflexivity.
  - unfold foldr, op_scope. rewrite Hfn. reflexivity.
Qed.

(** X3.  [foldr] is [foldl] on the reversed input: on every input of rank at
    least 1, with or without an initializer, for every [fn] and every fuel
    the two have the same outcome (also the same failure on an empty input
    without an initializer). *)
Theorem foldr_is_foldl_on_reversed_input
    (fuel : nat) (fn : PyObject) (dt : DType) (xs : list Value)
    (initializer : option Value) (parallel_iterations : Z)
    (back_prop swap_memory : bool) (name : option string) :
  outcome (foldr fuel fn (Stacked dt xs) initializer
                 parallel_iterations back_prop swap_memory name)
  = outcome (foldl fuel fn (Stacked dt (rev xs)) initializer
                   parallel_iterations back_prop swap_memory name).
Proof.
  destruct (callable fn) eqn:Hfn.
  2:{ unfold foldr, foldl, op_scope. rewrite Hfn. reflexivity. }
  destruct initializer as [init |].
  - rewrite foldr_ref_init, foldl_ref_init by exact Hfn. reflexivity.
  - destruct xs as [| x xs _] using rev_ind.
    + rewrite foldr_empty by exact Hfn. cbn [rev].
      rewrite foldl_empty by exact Hfn. reflexivity.
    + rewrite rev_app_distr. cbn [rev app].
      rewrite foldr_ref_no_init, foldl_ref_no_init by exact Hfn.
      reflexivity.
Qed.

(** X4.  Without an initializer [scan] seeds its output with the first
    element: its outcome on [x0 :: rest] is that of [scan] on [rest] with
    initializer [x0], with [x0] put in front of the output, for every [fn]
    and every fuel. *)
Theorem scan_first_element_is_seed
    (fuel : nat) (fn : PyObject) (dt : DType) (x0 : Value) (rest : list Value)
    (parallel_iterations : Z) (back_prop swap_memory : bool)
    (name : option string) :
  outcome (scan fuel fn (Stacked dt (x0 :: rest)) None
                parallel_iterations back_prop swap_memory name)
  = outcome_map
      (fun out => Stacked (dtype_of out) (x0 :: default [] (unstack out)))
      (outcome (scan fuel fn (Stacked dt rest) (Some x0)
                     parallel_iterations back_prop swap_memory name)).
Proof.
  destruct (callable fn) eqn:Hfn.
  - rewrite scan_ref_no_init, scan_ref_init by exact Hfn.
    rewrite outcome_map_map. reflexivity.
  - unfold scan, op_scope. rewrite Hfn. reflexivity.
Qed.

Ltac loop_error_absurd H :=
  first
    [ apply outcome_map_raises in H | idtac ];
  first
    [ apply fold_outcome_raises in H
    | apply map_outcome_raises in H
    | apply scan_outcome_raises in H ];
  destruct H as [H | [H | H]]; discriminate H.



(** X6.  [map_fn] and [scan] never fail in [pack]: whenever their loop
    returns, every slot of the output buffer has been written, so no call
    raises [IncompleteError], whatever [fn], the input and the fuel are. *)
Theorem output_buffer_is_complete
    (fuel : nat) (fn : PyObject) (elems : Value) (initializer : option Value)
    (dtype : option DType) (parallel_iterations : Z)
    (back_prop swap_memory : bool) (name : option string) :
  outcome (map_fn fuel fn elems dtype
                  parallel_iterations back_prop swap_memory name)
  <> Raise IncompleteError
  /\ outcome (scan fuel fn elems initializer
                   parallel_iterations back_prop swap_memory name)
     <> Raise IncompleteError.
Proof.
  destruct (callable fn) eqn:Hfn.
  2:{ unfold scan, map_fn, op_scope. rewrite Hfn. cbn.
      split; discriminate. }
  destruct elems as [dt x | dt xs].
  { unfold scan, map_fn, op_scope. rewrite Hfn. cbn. split; discriminate. }
  split.
  - rewrite map_fn_ref by exact Hfn. intros H. loop_error_absurd H.
  - destruct initializer as [init |].
    + rewrite scan_ref_init by exact Hfn. intros H. loop_error_absurd H.
    + destruct xs as [| x0 rest].
      * rewrite scan_empty by exact Hfn. discriminate.
      * rewrite scan_ref_no_init by exact Hfn. intros H.
        loop_error_absurd H.
Qed.

(** X7.  On an empty input with an initializer the loops take no iteration:
    [foldl] and [foldr] return the initializer itself and [scan] returns an
    empty sequence of the initializer's element type, with no read of a slot
    and no application of [f], for any fuel. *)
Theorem empty_input_with_initializer
    (fuel : nat) (f : Value -> Value -> Value) (dt : DType) (init : Value)
    (parallel_iterations : Z) (back_prop swap_memory : bool)
    (name : option string) :
  foldl fuel (Lambda2 f) (Stacked dt []) (Some init)
        parallel_iterations back_prop swap_memory name
  = (Return init, prologue (Stacked dt []) 0)
  /\ foldr fuel (Lambda2 f) (Stacked dt []) (Some init)
           parallel_iterations back_prop swap_memory name
     = (Return init, prologue (Stacked dt []) 0)
  /\ scan fuel (Lambda2 f) (Stacked dt []) (Some init)
          parallel_iterations back_prop swap_memory name
     = (Return (Stacked (dtype_of init) []),
        prologue (Stacked dt []) 0
          ++ [EvAllocate (dtype_of init) 0 false; EvPack]).
Proof. destruct fuel; repeat split; reflexivity. Qed.

(** ** Counting the events of a run *)

Lemma applications_app (t1 t2 : list Event) :
  applications (t1 ++ t2) = (applications t1 + applications t2)%nat.
Proof.
  induction t1 as [| ev t1 IH]; [reflexivity |].
  destruct ev; cbn; rewrite IH; reflexivity.
Qed.


Lemma writes_app (t1 t2 : list Event) :
  writes (t1 ++ t2) = writes t1 ++ writes t2.
Proof.
  induction t1 as [| ev t1 IH]; [reflexivity |].
  destruct ev; cbn; rewrite IH; reflexivity.
Qed.

Lemma fold_steps_counts (rest : list Value) :
  forall i : nat,
    applications (fold_steps i rest) = length rest
    /\ reads (fold_steps i rest) = map Z.of_nat (seq i (length rest))
    /\ writes (fold_steps i rest) = [].
Proof.
  induction rest as [| x rest IH]; intros i; [repeat split |].
  destruct (IH (S i)) as (Ha & Hr & Hw).
  cbn. rewrite Ha, Hr, Hw. repeat split.
Qed.

Lemma foldr_steps_counts (pre : list Value) :
  applications (foldr_steps pre) = length pre
  /\ reads (foldr_steps pre) = map Z.of_nat (rev (seq 0 (length pre)))
  /\ writes (foldr_steps pre) = [].
Proof.
  unfold foldr_steps.
  assert (forall l : list nat,
             applications
               (flat_map (fun k => [EvRead (Z.of_nat k); EvApply]) l)
             = length l
             /\ reads (flat_map (fun k => [EvRead (Z.of_nat k); EvApply]) l)
                = map Z.of_nat l
             /\ writes (flat_map (fun k => [EvRead (Z.of_nat k); EvApply]) l)
                = []) as Hl.
  { induction l as [| k l (Ha & Hr & Hw)]; [repeat split |].
    cbn. rewrite Ha, Hr, Hw. repeat split. }
  destruct (Hl (rev (seq 0 (length pre)))) as (Ha & Hr & Hw).
  rewrite Ha, Hr, Hw, length_rev, length_seq. repeat split.
Qed.


Lemma scan_steps_counts (f : Value -> Value -> Value) (rest : list Value) :
  forall (i : nat) (a : Value),
    applications (scan_steps f i a rest) = length rest
    /\ reads (scan_steps f i a rest) = map Z.of_nat (seq i (length rest))
    /\ writes (scan_steps f i a rest) = map Z.of_nat (seq i (length rest)).
Proof.
  induction rest as [| x rest IH]; intros i a; [repeat split |].
  destruct (IH (S i) (f a x)) as (Ha & Hr & Hw).
  cbn. rewrite Ha, Hr, Hw. repeat split.
Qed.

(** X8.  A successful [foldl] reads every input slot exactly once, in
    increasing index order, writes no buffer, and applies [f] once per
    element after the one that seeds the accumulator: [n - 1] times without
    an initializer, [n] times with one. *)
Theorem foldl_reads_each_slot_once
    (f : Value -> Value -> Value) (dt : DType) (x0 : Value) (rest : list Value)
    (fuel : nat) (parallel_iterations : Z) (back_prop swap_memory : bool)
    (name : option string) :
  (length (x0 :: rest) <= fuel)%nat ->
  Forall (fun v => dtype_of v = dtype_of x0) (scanl f x0 rest) ->
  (reads (events (foldl fuel (Lambda2 f) (Stacked dt (x0 :: rest)) None
                        parallel_iterations back_prop swap_memory name))
   = map Z.of_nat (seq 0 (length (x0 :: rest)))
   /\ applications
        (events (foldl fuel (Lambda2 f) (Stacked dt (x0 :: rest)) None
                       parallel_iterations back_prop swap_memory name))
      = (length (x0 :: rest) - 1)%nat
   /\ writes (events (foldl fuel (Lambda2 f) (Stacked dt (x0 :: rest)) None
                            parallel_iterations back_prop swap_memory name))
      = [])
  /\ (forall init : Value,
        Forall (fun v => dtype_of v = dtype_of init)
               (scanl f init (x0 :: rest)) ->
        reads (events (foldl fuel (Lambda2 f) (Stacked dt (x0 :: rest))
                             (Some init)
                             parallel_iterations back_prop swap_memory name))
        = map Z.of_nat (seq 0 (length (x0 :: rest)))
        /\ applications
             (events (foldl fuel (Lambda2 f) (Stacked dt (x0 :: rest))
                            (Some init)
                            parallel_iterations back_prop swap_memory name))
           = length (x0 :: rest)
        /\ writes
             (events (foldl fuel (Lambda2 f) (Stacked dt (x0 :: rest))
                            (Some init)
                            parallel_iterations back_prop swap_memory name))
           = []).
Proof.
  intros Hfuel Hdt. split.
  - rewrite foldl_run_no_init by (cbn in Hfuel; first [lia | assumption]).
    destruct (fold_steps_counts rest 1) as (Ha & Hr & Hw).
    cbn [events snd prologue app reads applications writes].
    rewrite Ha, Hr, Hw.
    split; [reflexivity | split; [cbn [length]; lia | reflexivity]].
  - intros init Hinit.
    rewrite foldl_run_init by assumption.
    destruct (fold_steps_counts (x0 :: rest) 0) as (Ha & Hr & Hw).
    cbn [events snd prologue app reads applications writes].
    rewrite Ha, Hr, Hw. repeat split.
Qed.

Lemma foldl_reads_each_slot_once_witness :
  ((length (map int32 [1; 2; 3; 4; 5; 6]%Z) <= 6)%nat
   /\ Forall (fun v => dtype_of v = dtype_of (int32 1))
             (scanl (lift2 Z.add) (int32 1) (map int32 [2; 3; 4; 5; 6])))
  /\ reads (events (foldl 6 (Lambda2 (lift2 Z.add))
                          (vector [1; 2; 3; 4; 5; 6]) None
                          default_parallel_iterations default_back_prop
                          default_swap_memory None))
     = [0; 1; 2; 3; 4; 5].
Proof.
  assert ((length (map int32 [1; 2; 3; 4; 5; 6]%Z) <= 6)%nat
          /\ Forall (fun v => dtype_of v = dtype_of (int32 1))
                    (scanl (lift2 Z.add) (int32 1)
                       (map int32 [2; 3; 4; 5; 6])))
    as H by (split; [cbn; lia | repeat constructor]).
  split; [exact H |].
  destruct H as [Hfuel Hdt].
  exact (proj1 (proj1 (foldl_reads_each_slot_once (lift2 Z.add) DT_INT32
                         (int32 1) (map int32 [2; 3; 4; 5; 6]) 6
                         default_parallel_iterations default_back_prop
                         default_swap_memory None Hfuel Hdt))).
Defined.

(** X9.  A successful [foldr] reads every input slot exactly once, in
    decreasing index order from [n - 1] down to 0, writes no buffer, and
    applies [f] [n - 1] times without an initializer and [n] times with
    one. *)
Theorem foldr_reads_each_slot_once
    (f : Value -> Value -> Value) (dt : DType) (pre : list Value) (xl : Value)
    (fuel : nat) (parallel_iterations : Z) (back_prop swap_memory : bool)
    (name : option string) :
  (length (pre ++ [xl]) <= fuel)%nat ->
  Forall (fun v => dtype_of v = dtype_of xl) (scanl f xl (rev pre)) ->
  (reads (events (foldr fuel (Lambda2 f) (Stacked dt (pre ++ [xl])) None
                        parallel_iterations back_prop swap_memory name))
   = map Z.of_nat (rev (seq 0 (length (pre ++ [xl]))))
   /\ applications
        (events (foldr fuel (Lambda2 f) (Stacked dt (pre ++ [xl])) None
                       parallel_iterations back_prop swap_memory name))
      = (length (pre ++ [xl]) - 1)%nat
   /\ writes (events (foldr fuel (Lambda2 f) (Stacked dt (pre ++ [xl])) None
                            parallel_iterations back_prop swap_memory name))
      = [])
  /\ (forall init : Value,
        Forall (fun v => dtype_of v = dtype_of init)
               (scanl f init (rev (pre ++ [xl]))) ->
        reads (events (foldr fuel (Lambda2 f) (Stacked dt (pre ++ [xl]))
                             (Some init)
                             parallel_iterations back_prop swap_memory name))
        = map Z.of_nat (rev (seq 0 (length (pre ++ [xl]))))
        /\ applications
             (events (foldr fuel (Lambda2 f) (Stacked dt (pre ++ [xl]))
                            (Some init)
                            parallel_iterations back_prop swap_memory name))
           = length (pre ++ [xl])
        /\ writes
             (events (foldr fuel (Lambda2 f) (Stacked dt (pre ++ [xl]))
                            (Some init)
                            parallel_iterations back_prop swap_memory name))
           = []).
Proof.
  intros Hfuel Hdt.
  assert (length (pre ++ [xl]) = S (length pre)) as Hlen
    by (rewrite length_app; cbn; lia).
  split.
  - rewrite foldr_run_no_init by (first [lia | assumption]).
    destruct (foldr_steps_counts pre) as (Ha & Hr & Hw).
    cbn [events snd prologue app reads applications writes].
    rewrite Ha, Hr, Hw, Hlen, seq_S, rev_app_distr.
    split; [reflexivity | split; [lia | reflexivity]].
  - intros init Hinit.
    rewrite foldr_run_init by assumption.
    destruct (foldr_steps_counts (pre ++ [xl])) as (Ha & Hr & Hw).
    cbn [events snd prologue app reads applications writes].
    rewrite Ha, Hr, Hw. repeat split.
Qed.

Lemma foldr_reads_each_slot_once_witness :
  ((length (map int32 [1; 2; 3; 4; 5]%Z ++ [int32 6]) <= 6)%nat
   /\ Forall (fun v => dtype_of v = dtype_of (int32 6))
             (scanl (lift2 Z.add) (int32 6)
                (rev (map int32 [1; 2; 3; 4; 5]))))
  /\ reads (events (foldr 6 (Lambda2 (lift2 Z.add))
                          (vector [1; 2; 3; 4; 5; 6]) None
                          default_parallel_iterations default_back_prop
                          default_swap_memory None))
     = [5; 4; 3; 2; 1; 0].
Proof.
  assert ((length (map int32 [1; 2; 3; 4; 5]%Z ++ [int32 6]) <= 6)%nat
          /\ Forall (fun v => dtype_of v = dtype_of (int32 6))
                    (scanl (lift2 Z.add) (int32 6)
                       (rev (map int32 [1; 2; 3; 4; 5]))))
    as H by (split; [cbn; lia | repeat constructor]).
  split; [exact H |].
  destruct H as [Hfuel Hdt].
  exact (proj1 (proj1 (foldr_reads_each_slot_once (lift2 Z.add) DT_INT32
                         (map int32 [1; 2; 3; 4; 5]) (int32 6) 6
                         default_parallel_iterations default_back_prop
                         default_swap_memory None Hfuel Hdt))).
Defined.



(** X11.  With an initializer [scan] writes no slot before its loop: the
    loop writes all [n] output slots in increasing index order, output slot
    [i] holding the fold of the first [i + 1] input elements from the
    initializer, and [f] is applied exactly [n] times. *)
Theorem scan_with_initializer
    (f : Value -> Value -> Value) (dt : DType) (xs : list Value) (init : Value)
    (fuel : nat) (parallel_iterations : Z) (back_prop swap_memory : bool)
    (name : option string) :
  (length xs <= fuel)%nat ->
  Forall (fun v => dtype_of v = dtype_of init) (scanl f init xs) ->
  scan fuel (Lambda2 f) (Stacked dt xs) (Some init)
       parallel_iterations back_prop swap_memory name
  = (Return (Stacked (dtype_of init) (scanl f init xs)),
     prologue (Stacked dt xs) (Z.of_nat (length xs))
       ++ EvAllocate (dtype_of init) (Z.of_nat (length xs)) false
       :: scan_steps f 0 init xs ++ [EvPack])
  /\ leading_dim (Stacked (dtype_of init) (scanl f init xs))
     = Some (Z.of_nat (length xs))
  /\ (forall i : nat,
        (i < length xs)%nat ->
        slice (Stacked (dtype_of init) (scanl f init xs)) i
        = Some (fold_left f (take (S i) xs) init))
  /\ writes (events (scan fuel (Lambda2 f) (Stacked dt xs) (Some init)
                          parallel_iterations back_prop swap_memory name))
     = map Z.of_nat (seq 0 (length xs))
  /\ applications
       (events (scan fuel (Lambda2 f) (Stacked dt xs) (Some init)
                     parallel_iterations back_prop swap_memory name))
     = length xs.
Proof.
  intros Hfuel Hdt.
  split; [apply scan_run_init; assumption |].
  split; [cbn [leading_dim]; rewrite scanl_length; reflexivity |].
  split; [intros i Hi; cbn [slice]; apply scanl_lookup; exact Hi |].
  rewrite scan_run_init by assumption.
  destruct (scan_steps_counts f xs 0 init) as (Ha & Hr & Hw).
  cbn [events snd prologue app reads applications writes].
  rewrite writes_app, applications_app, Ha, Hw.
  cbn [writes applications]. rewrite !app_nil_r, Nat.add_0_r.
  repeat split.
Qed.

Lemma scan_with_initializer_witness :
  ((length (map int32 [1; 2; 3]%Z) <= 3)%nat
   /\ Forall (fun v => dtype_of v = dtype_of (int32 10))
             (scanl (lift2 Z.add) (int32 10) (map int32 [1; 2; 3])))
  /\ outcome (scan 3 (Lambda2 (lift2 Z.add)) (vector [1; 2; 3])
                   (Some (int32 10))
                   default_parallel_iterations default_back_prop
                   default_swap_memory None)
     = Return (vector [11; 13; 16]).
Proof.
  assert ((length (map int32 [1; 2; 3]%Z) <= 3)%nat
          /\ Forall (fun v => dtype_of v = dtype_of (int32 10))
                    (scanl (lift2 Z.add) (int32 10) (map int32 [1; 2; 3])))
    as H by (split; [cbn; lia | repeat constructor]).
  split; [exact H |].
  destruct H as [Hfuel Hdt].
  exact (f_equal fst
           (proj1 (scan_with_initializer (lift2 Z.add) DT_INT32
                     (map int32 [1; 2; 3]) (int32 10) 3
                     default_parallel_iterations default_back_prop
                     default_swap_memory None Hfuel Hdt))).
Defined.

(** ** Prefixes, fusion and element types *)

(** Every accumulator of a reference scan is the reference fold of the
    prefix it closes. *)
Lemma scan_outcome_prefix (fn : PyObject) (odt : DType) (vals : list Value) :
  forall (fuel : nat) (a : Value) (ys : list Value) (i : nat),
    dtype_of a = odt ->
    scan_outcome fn odt fuel a vals = Return ys ->
    (i < length vals)%nat ->
    exists v : Value,
      ys !! i = Some v
      /\ fold_outcome fn fuel a (take (S i) vals) = Return v.
Proof.
  induction vals as [| x vals IH]; intros fuel a ys i Ha H Hi;
    [cbn in Hi; lia |].
  cbn [scan_outcome] in H. destruct fuel as [| fuel]; [discriminate |].
  cbn [take fold_outcome].
  destruct (outcome (call2 fn a x)) as [a' | e |]; try discriminate.
  destruct (bool_decide (dtype_of a' = odt)) eqn:Ha'; [| discriminate].
  apply bool_decide_eq_true in Ha'.
  rewrite bool_decide_eq_true_2 by congruence.
  destruct (scan_outcome fn odt fuel a' vals) as [ys' | |] eqn:Hrec;
    try discriminate.
  cbn in H. injection H as <-.
  destruct i as [| i].
  - exists a'. split; [reflexivity |]. rewrite take_0. reflexivity.
  - cbn [lookup list_lookup]. apply (IH fuel a' ys' i Ha' Hrec).
    cbn in Hi. lia.
Qed.

(** X12.  Every slot of a [scan] output is a [foldl]: whenever [scan]
    returns, for every index [i] of the input [foldl] on the first [i + 1]
    input elements, with the same [fn], initializer and fuel, returns output
    slot [i] of [scan]. *)
Theorem scan_slots_are_prefix_folds
    (fuel : nat) (fn : PyObject) (dt : DType) (xs : list Value)
    (initializer : option Value) (parallel_iterations : Z)
    (back_prop swap_memory : bool) (name : option string) (out : Value) :
  outcome (scan fuel fn (Stacked dt xs) initializer
                parallel_iterations back_prop swap_memory name)
  = Return out ->
  forall i : nat,
    (i < length xs)%nat ->
    exists v : Value,
      slice out i = Some v
      /\ outcome (foldl fuel fn (Stacked dt (take (S i) xs)) initializer
                        parallel_iterations back_prop swap_memory name)
         = Return v.
Proof.
  intros H i Hi.
  destruct (callable fn) eqn:Hfn.
  2:{ unfold scan, op_scope in H. rewrite Hfn in H. discriminate. }
  destruct initializer as [init |].
  - rewrite scan_ref_init in H by exact Hfn.
    destruct (scan_outcome fn (dtype_of init) fuel init xs) as [ys | |]
      eqn:Hys; try discriminate.
    cbn in H. injection H as <-.
    rewrite foldl_ref_init by exact Hfn.
    exact (scan_outcome_prefix fn (dtype_of init) xs fuel init ys i
             eq_refl Hys Hi).
  - destruct xs as [| x0 rest]; [cbn in Hi; lia |].
    rewrite scan_ref_no_init in H by exact Hfn.
    destruct (scan_outcome fn (dtype_of x0) fuel x0 rest) as [ys | |]
      eqn:Hys; try discriminate.
    cbn in H. injection H as <-.
    cbn [take]. rewrite foldl_ref_no_init by exact Hfn.
    destruct i as [| i].
    + exists x0. split; [reflexivity |]. rewrite take_0. reflexivity.
    + cbn [slice lookup list_lookup].
      apply (scan_outcome_prefix fn (dtype_of x0) rest fuel x0 ys i
               eq_refl Hys).
      cbn in Hi. lia.
Qed.

Lemma scan_slots_are_prefix_folds_witness :
  (outcome (scan 3 (Lambda2 (lift2 Z.add)) (vector [1; 2; 3; 4]) None
                 default_parallel_iterations default_back_prop
                 default_swap_memory None)
   = Return (vector [1; 3; 6; 10])
   /\ (2 < length (map int32 [1; 2; 3; 4]%Z))%nat)
  /\ exists v : Value,
       slice (vector [1; 3; 6; 10]) 2 = Some v
       /\ outcome (foldl 3 (Lambda2 (lift2 Z.add))
                         (Stacked DT_INT32
                            (take 3 (map int32 [1; 2; 3; 4])))
                         None default_parallel_iterations default_back_prop
                         default_swap_memory None)
          = Return v.
Proof.
  assert (2 < length (map int32 [1; 2; 3; 4]%Z))%nat as Hi by (cbn; lia).
  split; [split; [reflexivity | exact Hi] |].
  exact (scan_slots_are_prefix_folds 3 (Lambda2 (lift2 Z.add)) DT_INT32
           (map int32 [1; 2; 3; 4]) None default_parallel_iterations
           default_back_prop default_swap_memory None
           (vector [1; 3; 6; 10]) eq_refl 2%nat Hi).
Defined.

Lemma map_outcome_compose (f g : Value -> Value) (odt : DType)
    (xs : list Value) :
  forall fuel : nat,
    map_outcome (Lambda1 g) odt fuel (map f xs)
    = map_outcome (Lambda1 (fun x => g (f x))) odt fuel xs.
Proof.
  induction xs as [| x xs IH]; intros fuel; [reflexivity |].
  cbn [map map_outcome]. destruct fuel as [| fuel]; [reflexivity |].
  cbn [call1 outcome bind emit ret fst].
  rewrite IH. reflexivity.
Qed.

(** X13.  Two [map_fn] in a row fuse: when [map_fn] of [f] returns [ys],
    [map_fn] of [g] on [ys] has the outcome of [map_fn] of the composition
    of [g] after [f] on the original input (element type left to default,
    same fuel). *)
Theorem map_fn_fusion
    (fuel : nat) (f g : Value -> Value) (dt : DType) (xs : list Value)
    (parallel_iterations : Z) (back_prop swap_memory : bool)
    (name : option string) (ys : Value) :
  outcome (map_fn fuel (Lambda1 f) (Stacked dt xs) None
                  parallel_iterations back_prop swap_memory name)
  = Return ys ->
  outcome (map_fn fuel (Lambda1 g) ys None
                  parallel_iterations back_prop swap_memory name)
  = outcome (map_fn fuel (Lambda1 (fun x => g (f x))) (Stacked dt xs) None
                    parallel_iterations back_prop swap_memory name).
Proof.
  intros H. apply map_fn_returns in H. subst ys.
  rewrite !map_fn_ref by reflexivity.
  cbn [map_out_dtype dtype_of]. rewrite map_outcome_compose. reflexivity.
Qed.

Lemma map_fn_fusion_witness :
  outcome (map_fn 3 (Lambda1 (lift1 (fun z => z + 1))) (vector [1; 2; 3]) None
                  default_parallel_iterations default_back_prop
                  default_swap_memory None)
  = Return (vector [2; 3; 4])
  /\ outcome (map_fn 3 (Lambda1 (lift1 (fun z => z * z))) (vector [2; 3; 4])
                     None default_parallel_iterations default_back_prop
                     default_swap_memory None)
     = outcome (map_fn 3 (Lambda1 (fun x => lift1 (fun z => z * z)
                                               (lift1 (fun z => z + 1) x)))
                       (vector [1; 2; 3]) None
                       default_parallel_iterations default_back_prop
                       default_swap_memory None).
Proof.
  split; [reflexivity |].
  exact (map_fn_fusion 3 (lift1 (fun z => z + 1)) (lift1 (fun z => z * z))
           DT_INT32 (map int32 [1; 2; 3]) default_parallel_iterations
           default_back_prop default_swap_memory None (vector [2; 3; 4])
           eq_refl).
Defined.

Lemma map_outcome_returns (f : Value -> Value) (odt : DType)
    (xs : list Value) :
  forall (fuel : nat) (ys : list Value),
    map_outcome (Lambda1 f) odt fuel xs = Return ys ->
    Forall (fun x => dtype_of (f x) = odt) xs.
Proof.
  induction xs as [| x xs IH]; intros fuel ys H; [constructor |].
  cbn [map_outcome] in H. destruct fuel as [| fuel]; [discriminate |].
  cbn [call1 outcome bind emit ret fst] in H.
  destruct (bool_decide (dtype_of (f x) = odt)) eqn:Hx; [| discriminate].
  apply bool_decide_eq_true in Hx.
  destruct (map_outcome (Lambda1 f) odt fuel xs) as [ys' | |] eqn:Hrec;
    try discriminate.
  constructor; [exact Hx | eapply IH; exact Hrec].
Qed.

(** X14.  "Users must provide [dtype] if it is different from the data type
    of [elems]": whenever [map_fn] returns, its output carries the element
    type [dtype], or that of [elems] when [dtype] is not given, and [f] has
    returned a value of that element type on every input element. *)
Theorem map_fn_output_dtype
    (fuel : nat) (f : Value -> Value) (dt : DType) (xs : list Value)
    (dtype : option DType) (parallel_iterations : Z)
    (back_prop swap_memory : bool) (name : option string) (out : Value) :
  outcome (map_fn fuel (Lambda1 f) (Stacked dt xs) dtype
                  parallel_iterations back_prop swap_memory name)
  = Return out ->
  dtype_of out = match dtype with Some d => d | None => dt end
  /\ homogeneous out
  /\ Forall (fun x => dtype_of (f x)
                      = match dtype with Some d => d | None => dt end) xs.
Proof.
  intros H. pose proof H as Hout. apply map_fn_returns in Hout. subst out.
  rewrite map_fn_ref in H by reflexivity.
  destruct (map_outcome (Lambda1 f) (map_out_dtype dtype (Stacked dt xs))
              fuel xs) as [ys | |] eqn:Hys; try discriminate.
  apply map_outcome_returns in Hys.
  split; [reflexivity |]. split; [| exact Hys].
  cbn [homogeneous]. apply Forall_map. exact Hys.
Qed.

Lemma map_fn_output_dtype_witness :
  outcome (map_fn 3 (Lambda1 (fun x => Scalar DT_FLOAT 0)) (vector [1; 2; 3])
                  (Some DT_FLOAT)
                  default_parallel_iterations default_back_prop
                  default_swap_memory None)
  = Return (Stacked DT_FLOAT
              [Scalar DT_FLOAT 0; Scalar DT_FLOAT 0; Scalar DT_FLOAT 0])
  /\ dtype_of (Stacked DT_FLOAT
                 [Scalar DT_FLOAT 0; Scalar DT_FLOAT 0; Scalar DT_FLOAT 0])
     = DT_FLOAT.
Proof.
  split; [reflexivity |].
  exact (proj1 (map_fn_output_dtype 3 (fun x => Scalar DT_FLOAT 0) DT_INT32
                  (map int32 [1; 2; 3]) (Some DT_FLOAT)
                  default_parallel_iterations default_back_prop
                  default_swap_memory None
                  (Stacked DT_FLOAT
                     [Scalar DT_FLOAT 0; Scalar DT_FLOAT 0; Scalar DT_FLOAT 0])
                  eq_refl)).
Defined.

(** ** The shape function of [SymbolicGradient] *)

Section SymbolicGradient.
Context {Shape : Type}.

Lemma comprehension_in_range (l : list (Tensor Shape)) (n : nat) :
  forall k : nat,
    (k + n <= length l)%nat ->
    comprehension
      (fun i => let* t := getitem l i in ret (get_shape t)) (seq k n)
    = ret (map get_shape (take n (drop k l))).
Proof.
  induction n as [| n IH]; intros k Hk; [reflexivity |].
  destruct (lookup_lt_is_Some_2 l k ltac:(lia)) as [t Ht].
  cbn [seq comprehension]. unfold getitem at 1. rewrite Ht.
  rewrite (IH (S k)) by lia.
  rewrite (drop_S l t k Ht). reflexivity.
Qed.

Lemma comprehension_past_the_end (l : list (Tensor Shape)) (n : nat) :
  forall k : nat,
    (k <= length l)%nat ->
    (length l < k + n)%nat ->
    outcome
      (comprehension
         (fun i => let* t := getitem l i in ret (get_shape t)) (seq k n))
    = Raise IndexError.
Proof.
  induction n as [| n IH]; intros k Hk Hn; [lia |].
  cbn [seq comprehension]. unfold getitem at 1.
  destruct (l !! k) as [t |] eqn:Ht.
  - apply lookup_lt_Some in Ht.
    rewrite outcome_bind, outcome_bind_ret. cbn [outcome ret fst].
    rewrite outcome_bind, (IH (S k)) by lia.
    reflexivity.
  - reflexivity.
Qed.

End SymbolicGradient.

(** X15.  "(u, v) = f(x, y, z), _symbolic_gradient(f) is a function of
    (x, y, z, du, dv) -> (dx, dy, dz).  Therefore, shapes of its outputs
    (dx, dy, dz) are the same as (x, y, z)": for an operation whose inputs
    are [xs] followed by [dys] and which has as many outputs as [xs] has
    elements, the shape function returns the shapes of [xs], in order. *)
Theorem symbolic_gradient_shape_of_leading_inputs
    {Shape : Type} (xs dys outs : list (Tensor Shape)) :
  length outs = length xs ->
  _symbolic_gradient_shape (mkOperation (xs ++ dys) outs)
  = ret (map get_shape xs).
Proof.
  intros Hlen. unfold _symbolic_gradient_shape. cbn [inputs outputs].
  rewrite comprehension_in_range by (rewrite length_app; lia).
  rewrite drop_0, Hlen, take_app_length. reflexivity.
Qed.

Lemma symbolic_gradient_shape_of_leading_inputs_witness :
  length [mkTensor [2; 3]; mkTensor [4]]
  = length [mkTensor [2; 3]; mkTensor [4]]
  /\ _symbolic_gradient_shape
       (mkOperation
          ([mkTensor [2; 3]; mkTensor [4]] ++ [mkTensor [7]; mkTensor []])
          [mkTensor [2; 3]; mkTensor [4]])
     = ret [[2; 3]; [4]].
Proof.
  split; [reflexivity |].
  exact (symbolic_gradient_shape_of_leading_inputs
           [mkTensor [2; 3]; mkTensor [4]] [mkTensor [7]; mkTensor []]
           [mkTensor [2; 3]; mkTensor [4]] eq_refl).
Defined.

(** X16.  The shape function indexes the inputs by the positions of the
    outputs without a bound check: for an operation with more outputs than
    inputs it raises [IndexError]. *)
Theorem symbolic_gradient_shape_more_outputs_than_inputs
    {Shape : Type} (op : Operation Shape) :
  (length (inputs op) < length (outputs op))%nat ->
  outcome (_symbolic_gradient_shape op) = Raise IndexError.
Proof.
  intros Hlen. unfold _symbolic_gradient_shape.
  apply comprehension_past_the_end; lia.
Qed.

Lemma symbolic_gradient_shape_more_outputs_than_inputs_witness :
  (length (inputs (mkOperation [mkTensor [2; 3]]
                     [mkTensor [2; 3]; mkTensor [4]]))
   < length (outputs (mkOperation [mkTensor [2; 3]]
                        [mkTensor [2; 3]; mkTensor [4]])))%nat
  /\ outcome (_symbolic_gradient_shape
                (mkOperation [mkTensor [2; 3]]
                   [mkTensor [2; 3]; mkTensor [4]]))
     = Raise IndexError.
Proof.
  assert (length (inputs (mkOperation [mkTensor [2; 3]]
                            [mkTensor [2; 3]; mkTensor [4]]))
          < length (outputs (mkOperation [mkTensor [2; 3]]
                               [mkTensor [2; 3]; mkTensor [4]])))%nat
    as H by (cbn; lia).
  split; [exact H |].
  exact (symbolic_gradient_shape_more_outputs_than_inputs
           (mkOperation [mkTensor [2; 3]] [mkTensor [2; 3]; mkTensor [4]]) H).
Defined.

(** X17.  The arity of [fn] is found out only by applying it: a callable
    of the wrong arity passes the check of every combinator, and as soon as
    the loop takes an iteration the call raises Python's own [TypeError] of
    the application, which is not the "fn must be callable." error. *)
Theorem wrong_arity_fails_in_the_loop_body
    (fuel : nat) (g : Value -> Value) (h : Value -> Value -> Value)
    (dt : DType) (x : Value) (rest : list Value) (init : Value)
    (dtype : option DType) (parallel_iterations : Z)
    (back_prop swap_memory : bool) (name : option string) :
  outcome (foldl (S fuel) (Lambda1 g) (Stacked dt (x :: rest)) (Some init)
                 parallel_iterations back_prop swap_memory name)
  = Raise ArgumentCountError
  /\ outcome (foldr (S fuel) (Lambda1 g) (Stacked dt (x :: rest)) (Some init)
                    parallel_iterations back_prop swap_memory name)
     = Raise ArgumentCountError
  /\ outcome (scan (S fuel) (Lambda1 g) (Stacked dt (x :: rest)) (Some init)
                   parallel_iterations back_prop swap_memory name)
     = Raise ArgumentCountError
  /\ outcome (map_fn (S fuel) (Lambda2 h) (Stacked dt (x :: rest)) dtype
                     parallel_iterations back_prop swap_memory name)
     = Raise ArgumentCountError
  /\ ArgumentCountError <> NotCallableError.
Proof.
  rewrite foldl_ref_init, foldr_ref_init, scan_ref_init, map_fn_ref
    by reflexivity.
  split; [reflexivity |].
  split.
  { cbn [rev]. destruct (rev rest); reflexivity. }
  split; [reflexivity |]. split; [reflexivity | discriminate].
Qed.
